(** * A shallow embedding of efts-io (Ensemble Forecast Time Series I/O)

    The package [efts_io] has two layers:
    - the R reference implementation kept as comments in [_internals.py]
      ([splice_named_var], [dim_names<-], [reduce_dimensions]), the
      algorithmic core of the convention;
    - the Python modules [conventions.py], [variables.py] and
      [wrapper.py], which build and validate xarray data sets.

    R arrays are modelled with their dimension vector, their custom
    [dim_names] attribute and their data in column-major order.  Python
    dictionaries are stdpp [gmap]s, Python sets are [gset]s and Python
    exceptions are the error branch of an [outcome] monad. *)

From Stdlib Require Import String Ascii ZArith List Permutation Lia.
From stdpp Require Import base list gmap strings pretty.
Import ListNotations.
Open Scope string_scope.

(** ** Outcomes: a value, or an error (an R condition or a Python exception) *)

Inductive outcome (E A : Type) : Type :=
| Ok (a : A)
| Err (e : E).
Arguments Ok {E A} a.
Arguments Err {E A} e.

#[global] Instance outcome_ret E : MRet (outcome E) := fun _ a => Ok a.
#[global] Instance outcome_bind E : MBind (outcome E) :=
  fun _ _ f m => match m with Ok a => f a | Err e => Err e end.

(** R's [stop(msg)]: the condition carries its message. *)
Definition r_result := outcome string.

Definition stop {A} (msg : string) : r_result A := Err msg.

(** ** R helpers used by the reference implementation *)

(** [x %in% table] on character vectors. *)
Definition r_in (x : string) (table : list string) : bool :=
  existsb (String.eqb x) table.

(** [match(x, table)]: the (0-based) position of the first occurrence,
    [None] standing for [NA]. *)
Fixpoint r_match (x : string) (table : list string) : option nat :=
  match table with
  | [] => None
  | y :: t => if String.eqb x y then Some 0 else S <$> r_match x t
  end.

(** [unique(x)]: keeps the first occurrence of each element. *)
Fixpoint r_unique_aux (seen : list string) (l : list string) : list string :=
  match l with
  | [] => []
  | x :: t => if r_in x seen then r_unique_aux seen t
              else x :: r_unique_aux (x :: seen) t
  end.
Definition r_unique (l : list string) : list string := r_unique_aux [] l.

(** [setdiff(x, y)] = [unique(x[!(x %in% y)])]. *)
Definition r_setdiff (x y : list string) : list string :=
  r_unique (List.filter (fun a => negb (r_in a y)) x).

(** All matches present, or [None] when one of them is [NA]. *)
Fixpoint all_found (l : list (option nat)) : option (list nat) :=
  match l with
  | [] => Some []
  | Some p :: t => (fun r => p :: r) <$> all_found t
  | None :: _ => None
  end.

(** [prod(dim)]: the number of cells of an array. *)
Definition prod (ds : list nat) : nat := fold_right Nat.mul 1 ds.

(** Column-major (Fortran, R) offset of a multi-index. *)
Fixpoint flat (ds idx : list nat) : nat :=
  match ds, idx with
  | d :: ds', i :: idx' => i + d * flat ds' idx'
  | _, _ => 0
  end.

(** Inverse of [flat]: the multi-index of an offset. *)
Fixpoint unflat (ds : list nat) (k : nat) : list nat :=
  match ds with
  | [] => []
  | d :: ds' => k mod d :: unflat ds' (k / d)
  end.

(** A multi-index within the bounds of a dimension vector. *)
Fixpoint valid_index (ds idx : list nat) : Prop :=
  match ds, idx with
  | [], [] => True
  | d :: ds', i :: idx' => i < d /\ valid_index ds' idx'
  | _, _ => False
  end.

(** Position of [m] in a list of naturals ([length] when absent). *)
Fixpoint index_of (m : nat) (l : list nat) : nat :=
  match l with
  | [] => 0
  | p :: t => if Nat.eqb m p then 0 else S (index_of m t)
  end.

Section RArrays.
(** The element type of the array and its [NA]. *)
Context {A : Type} (na : A).

(** An R array with the custom attribute [dim_names]. *)
Record rarray := mk_rarray {
  r_dim : list nat;
  r_dim_names : option (list string);
  r_data : list A
}.

(** [aperm(a, perm)]: the result has [dim(a)[perm]], and its cell at
    multi-index [j] is the cell of [a] at the multi-index [i] with
    [i[perm[k]] = j[k]].  Positions are 0-based here. *)
Definition old_index (perm : list nat) (n : nat) (j : list nat) : list nat :=
  map (fun m => nth (index_of m perm) j 0) (seq 0 n).

Definition aperm (x : rarray) (perm : list nat) : r_result rarray :=
  let ds := r_dim x in
  let n := length ds in
  if negb (Nat.eqb (length perm) n) then stop "'perm' is of wrong length"
  else if negb (bool_decide (Forall (fun p => p < n) perm) &&
                bool_decide (NoDup perm))
  then stop "invalid 'perm' argument"
  else
    let nd := map (fun p => nth p ds 0) perm in
    Ok (mk_rarray nd None
          (map (fun k => nth (flat ds (old_index perm n (unflat nd k)))
                             (r_data x) na)
               (seq 0 (prod nd)))).

(** [array(data, dim)]: the data recycled to fill [prod(dim)] cells,
    [NA] when there is no data. *)
Definition r_array (data : list A) (dims : list nat) : rarray :=
  mk_rarray dims None
    (match data with
     | [] => repeat na (prod dims)
     | _ => map (fun k => nth (k mod length data) data na) (seq 0 (prod dims))
     end).

(** [dim_names<-] on an array (the result of [array] always is one). *)
Definition set_dim_names (x : rarray) (value : list string) : r_result rarray :=
  let d := r_dim x in
  if negb (Nat.eqb (length d) (length value))
  then stop "dim names is not equal to the number of dimensions of the array"
  else if negb (Nat.eqb (length (r_unique value)) (length d))
  then stop "specified dim names are not unique"
  else Ok (mk_rarray d (Some value) (r_data x)).

(** [reduce_dimensions(x, subset_dim_names)]; [None] is the missing
    argument.  The guard [missing(s) || is.na(s)] is read with the [||]
    of R before 4.3, which looks at the first element of [is.na(s)]: a
    character vector of names is never [NA], and for an empty vector
    [is.na] is [logical(0)], [||] gives [NA] and [if] stops.
    [firstn (length w)] is R's [[1:length(w)]] for a non-empty [w]; for
    an empty [w] (no subset given and every axis of extent 1) R's [1:0]
    selects the first element, which [firstn 0] does not reproduce. *)
Definition reduce_dimensions (x : rarray) (subset : option (list string))
  : r_result rarray :=
  let dimsize_input := r_dim x in
  match r_dim_names x with
  | None => stop "the input array must have a valid dim_names attribute"
  | Some dn =>
    if negb (Nat.eqb (length dn) (length dimsize_input))
    then stop "the input array and its dim_names attribute are differing in length"
    else
      (* size of the axis named [n]: [dimsize_input[n]] *)
      let size_of n := nth (default 0 (r_match n dn)) dimsize_input 0 in
      match (match subset with
             | None => Ok (List.filter (fun n => Nat.ltb 1 (size_of n)) dn)
             | Some [] => stop "missing value where TRUE/FALSE needed"
             | Some s => Ok s
             end) with
      | Err e => Err e
      | Ok subset_dim_names =>
        let diffdim := r_setdiff subset_dim_names dn in
        if negb (Nat.eqb (length diffdim) 0)
        then stop (String.concat ""
               (map (fun d => "Dimension names to slice but not found in array dim names: "
                                ++ d ++ " , ") diffdim))
        else
          let dropped_dims := r_setdiff dn subset_dim_names in
          if existsb (fun n => Nat.ltb 1 (size_of n)) dropped_dims
          then stop "Cannot drop non-degenerate when subsetting"
          else
            let w := map (fun n => r_match n dn) subset_dim_names in
            let other := map (fun n => r_match n dn) (r_setdiff dn subset_dim_names) in
            match all_found (w ++ other) with
            | None => stop "invalid 'perm' argument"
            | Some perm =>
              x_reordered ← aperm x perm;
              let reordered_dim_names := map (fun p => nth p dn "") perm in
              let reordered_dim_sizes := r_dim x_reordered in
              let new_dim_sizes := firstn (length w) reordered_dim_sizes in
              let new_dim_names := firstn (length w) reordered_dim_names in
              (* [drop] only removes extents of 1 from [dim]: the data
                 that [array] reads is that of [x_reordered] *)
              let y := r_array (r_data x_reordered) new_dim_sizes in
              set_dim_names y new_dim_names
            end
      end
  end.

(** Re-expansion of a reduced array to the original shape: the cell of
    the original multi-index [idx] is read in [y] at the multi-index of
    the target axes (the dropped axes having extent 1). *)
Definition project (dn target : list string) (idx : list nat) : list nat :=
  map (fun n => nth (default 0 (r_match n dn)) idx 0) target.

Definition reexpand (dn target : list string) (dims : list nat) (y : rarray) : list A :=
  map (fun k => nth (flat (r_dim y) (project dn target (unflat dims k))) (r_data y) na)
      (seq 0 (prod dims)).
End RArrays.

(** ** [splice_named_var] *)

Definition LEAD_TIME_DIMNAME := "lead_time".
Definition STATION_DIMNAME := "station".
Definition ENS_MEMBER_DIMNAME := "ens_member".
Definition TIME_DIMNAME := "time".

Definition get_default_dim_order : list string :=
  [LEAD_TIME_DIMNAME; STATION_DIMNAME; ENS_MEMBER_DIMNAME; TIME_DIMNAME].

(** [d[n]] on a named vector: the first element with that name, [NA]
    ([None]) when there is none. *)
Fixpoint r_get_named (d : list (string * Z)) (n : string) : option Z :=
  match d with
  | [] => None
  | (m, v) :: t => if String.eqb n m then Some v else r_get_named t n
  end.

(** The R [splice_named_var(d, ncdims)]; an element of the result is
    [None] when R would hold [NA]. *)
Definition splice_named_var (d : list Z) (ncdims : list string)
  : r_result (list (string * option Z)) :=
  let default_order := get_default_dim_order in
  if negb (Nat.eqb (length d) 4) then stop "length(d) == 4 is not TRUE"
  else
    let dn := combine default_order d in
    if Nat.ltb 0 (length ncdims) then
      if negb (forallb (fun n => r_in n default_order) ncdims)
      then stop ("Invalid dimensions for a data variable: " ++ String.concat "," ncdims)
      else Ok (map (fun n => (n, r_get_named dn n)) ncdims)
    else Ok (map (fun '(n, v) => (n, Some v)) dn).

(* ================================================================= *)
(** * The Python package *)
(* ================================================================= *)

(** ** Python values and exceptions *)

(** The Python values the modelled code stores in arrays or combines
    with [+]: strings, integers, [None] and the float [nan] (other floats
    are not read by any property here). *)
Inductive pyval : Type :=
| PyStr (s : string)
| PyInt (z : Z)
| PyNone
| PyNaN.

#[global] Instance pyval_eq_dec : EqDecision pyval.
Proof. solve_decision. Defined.

Inductive py_exc : Type :=
| ValueError (msg : string)
| TypeError (msg : string)
| KeyError (key : string)
| AttributeError (msg : string)
| IndexError (msg : string)
| FileExistsError (msg : string)
| Exception (msg : string).

Definition py_result := outcome py_exc.

Definition raise {A} (e : py_exc) : py_result A := Err e.

(** [a + b] on the values above. *)
Definition py_add (a b : pyval) : py_result pyval :=
  match a, b with
  | PyStr s, PyStr t => Ok (PyStr (s ++ t))
  | PyInt x, PyInt y => Ok (PyInt (x + y))
  | PyStr _, _ => raise (TypeError "can only concatenate str to str")
  | _, _ => raise (TypeError "unsupported operand type(s) for +")
  end.

(** [str(v)] for a string value. *)
Definition py_str_of (v : pyval) : string :=
  match v with PyStr s => s | _ => "" end.

(** [x in l] on a list of strings. *)
Definition py_in (x : string) (l : list string) : bool := existsb (String.eqb x) l.

(** Python's [==] on the values above, as NumPy's element-wise [==]
    applies it to each cell of an array: [NaN] (and [NaT]) is equal to
    nothing, itself included. *)
Definition py_eq (a b : pyval) : bool :=
  match a, b with
  | PyNaN, _ | _, PyNaN => false
  | _, _ => bool_decide (a = b)
  end.

(** ** [conventions.py] *)

Definition STR_LEN_DIMNAME := "strLen".
Definition STATION_ID_VARNAME := "station_id".
Definition STATION_NAME_VARNAME := "station_name".
Definition LAT_VARNAME := "lat".
Definition LON_VARNAME := "lon".
Definition X_VARNAME := "x".
Definition Y_VARNAME := "y".
Definition AREA_VARNAME := "area".
Definition ELEVATION_VARNAME := "elevation".

Definition conventional_varnames : list string :=
  [STATION_DIMNAME; LEAD_TIME_DIMNAME; TIME_DIMNAME; ENS_MEMBER_DIMNAME;
   STR_LEN_DIMNAME; STATION_ID_VARNAME; STATION_NAME_VARNAME; LAT_VARNAME;
   LON_VARNAME; X_VARNAME; Y_VARNAME; AREA_VARNAME; ELEVATION_VARNAME].

Definition TITLE_ATTR_KEY := "title".
Definition INSTITUTION_ATTR_KEY := "institution".
Definition SOURCE_ATTR_KEY := "source".
Definition CATCHMENT_ATTR_KEY := "catchment".
Definition STF_CONVENTION_VERSION_ATTR_KEY := "STF_convention_version".
Definition STF_NC_SPEC_ATTR_KEY := "STF_nc_spec".
Definition COMMENT_ATTR_KEY := "comment".
Definition HISTORY_ATTR_KEY := "history".

Definition STF_2_0_URL :=
  "https://github.com/csiro-hydroinformatics/efts/blob/d7d43a995fb5e459bcb894e09b7bb89de03e285c/docs/netcdf_for_water_forecasting.md".

Definition mandatory_global_attributes : list string :=
  [TITLE_ATTR_KEY; INSTITUTION_ATTR_KEY; SOURCE_ATTR_KEY; CATCHMENT_ATTR_KEY;
   STF_CONVENTION_VERSION_ATTR_KEY; STF_NC_SPEC_ATTR_KEY; COMMENT_ATTR_KEY;
   HISTORY_ATTR_KEY].

Definition mandatory_netcdf_dimensions : list string :=
  [TIME_DIMNAME; STATION_DIMNAME; LEAD_TIME_DIMNAME; STR_LEN_DIMNAME; ENS_MEMBER_DIMNAME].

Definition mandatory_xarray_dimensions : list string :=
  [TIME_DIMNAME; STATION_DIMNAME; LEAD_TIME_DIMNAME; ENS_MEMBER_DIMNAME].

Definition mandatory_varnames : list string :=
  [TIME_DIMNAME; STATION_DIMNAME; LEAD_TIME_DIMNAME; STATION_ID_VARNAME;
   STATION_NAME_VARNAME; ENS_MEMBER_DIMNAME; LAT_VARNAME; LON_VARNAME].

(** An xarray variable: its dimension names, its shape and its values
    (flattened in row-major (C) order).  Attributes and encodings are not
    modelled: no property here reads them. *)
Record xvar := mk_xvar {
  xv_dims : list string;
  xv_shape : list nat;
  xv_values : list pyval
}.

(** A NumPy array: its shape and its cells in row-major (C) order. *)
Record ndarray (T : Type) := mk_ndarray {
  nd_shape : list nat;
  nd_cells : list T
}.
Arguments mk_ndarray {T} _ _.
Arguments nd_shape {T} _.
Arguments nd_cells {T} _.

(** [v.values] of a variable. *)
Definition values_of (v : xvar) : ndarray pyval := mk_ndarray (xv_shape v) (xv_values v).

(** [a == x] for a NumPy array [a] (or a [DataArray]) and a value [x]:
    element-wise, of the shape of [a]. *)
Definition nd_eq (a : ndarray pyval) (x : pyval) : ndarray bool :=
  mk_ndarray (nd_shape a) (map (py_eq x) (nd_cells a)).

(** An xarray [Dataset]: [dims] (name to size), [variables] (data
    variables and coordinates, by name), the names of its coordinates in
    the order [Dataset.coords] lists them, and [attrs]. *)
Record xdataset := mk_xdataset {
  ds_dims : gmap string nat;
  ds_variables : gmap string xvar;
  ds_coords : list string;
  ds_attrs : gmap string string
}.

(** [_is_nc_dataset] always answers [False] (netCDF4 handles are disabled),
    so every predicate takes its xarray branch. *)
Definition _has_required_dimensions (d : xdataset) (mandatory_dimensions : list string) : bool :=
  bool_decide (dom (ds_dims d) = list_to_set mandatory_dimensions).

Definition has_required_stf2_dimensions (d : xdataset) : bool :=
  _has_required_dimensions d mandatory_netcdf_dimensions.

Definition has_required_xarray_dimensions (d : xdataset) : bool :=
  _has_required_dimensions d mandatory_xarray_dimensions.

Definition _has_all_members (tested : gset string) (reference : list string) : bool :=
  let r : gset string := list_to_set reference in
  bool_decide (tested ∩ r = r).

Definition has_required_global_attributes (d : xdataset) : bool :=
  _has_all_members (dom (ds_attrs d)) mandatory_global_attributes.

Definition has_required_variables (d : xdataset) : bool :=
  _has_all_members (dom (ds_variables d)) mandatory_varnames.

(** [check_index_found]: the not-found message naming the identifier and
    the dimension. *)
Definition check_index_found (index_id : option nat) (identifier dimension_id : string)
  : py_result unit :=
  match index_id with
  | None => raise (ValueError ("identifier '" ++ identifier ++
                      "' not found in the dimension '" ++ dimension_id ++ "'"))
  | Some _ => Ok tt
  end.

(** ** xarray construction *)

(** The sizes a variable gives to its dimensions, checked against the
    sizes already known ([xr.Dataset] refuses conflicting sizes). *)
Fixpoint add_dims (dims : gmap string nat) (names : list string) (shape : list nat)
  : py_result (gmap string nat) :=
  match names, shape with
  | n :: ns, s :: ss =>
    match dims !! n with
    | Some s' => if Nat.eqb s' s then add_dims dims ns ss
                 else raise (ValueError ("conflicting sizes for dimension '" ++ n ++ "'"))
    | None => add_dims (<[n:=s]> dims) ns ss
    end
  | _, _ => Ok dims
  end.

(** [xr.Dataset(data_vars=..., coords=..., attrs=...)]; the names of
    data variables and coordinates are distinct in every call below.  The
    variables are merged data variables first, so [Dataset.coords] lists
    the coordinates in the order given. *)
Definition xr_Dataset (data_vars coords : list (string * xvar)) (attrs : gmap string string)
  : py_result xdataset :=
  dims ← foldl (fun acc (nv : string * xvar) =>
                  m ← acc; add_dims m (xv_dims nv.2) (xv_shape nv.2))
               (Ok ∅) (coords ++ data_vars);
  Ok (mk_xdataset dims (list_to_map (coords ++ data_vars)) (map fst coords) attrs).

(** A one-dimensional variable [(dim, values)]. *)
Definition var1 (dim : string) (values : list pyval) : xvar :=
  mk_xvar [dim] [length values] values.

(** [np.arange(start=a, stop=b, step=1)]. *)
Definition arange (a b : nat) : list pyval :=
  map (fun k => PyInt (Z.of_nat k)) (seq a (b - a)).

(** [nan_full(shape)]. *)
Definition nan_full (shape : list nat) : list pyval := repeat PyNaN (prod shape).

Definition stf2_mandatory_global_attributes
    (title institution catchment source comment history : string) : gmap string string :=
  list_to_map [(TITLE_ATTR_KEY, title); (INSTITUTION_ATTR_KEY, institution);
               (CATCHMENT_ATTR_KEY, catchment); (SOURCE_ATTR_KEY, source);
               (COMMENT_ATTR_KEY, comment); (HISTORY_ATTR_KEY, history);
               (STF_CONVENTION_VERSION_ATTR_KEY, "2.0");
               (STF_NC_SPEC_ATTR_KEY, STF_2_0_URL)].

Definition stf2_default_attributes : gmap string string :=
  stf2_mandatory_global_attributes "not provided" "not provided" "not provided"
    "not provided" "not provided" "not provided".

(** [xr_efts]: the in-memory schema builder.  Timestamps, identifiers and
    coordinates are given as Python values; [nc_attributes or default]
    takes the default for [None] and for an empty dictionary.  The final
    [set_xindex(station_id)] and the attributes set on the coordinates
    leave dimensions, variables and global attributes unchanged. *)
Definition xr_efts (issue_times : list pyval) (station_ids : list string)
    (lead_times : option (list pyval)) (lead_time_tstep : string) (ensemble_size : nat)
    (station_names : option (list string))
    (latitudes longitudes areas : option (list pyval))
    (nc_attributes : option (gmap string string)) : py_result xdataset :=
  let lead_times := default [PyInt 0] lead_times in
  let n_stations := length station_ids in
  let coords :=
    [(TIME_DIMNAME, var1 TIME_DIMNAME issue_times);
     (STATION_DIMNAME, var1 STATION_DIMNAME (arange 1 (n_stations + 1)));
     (ENS_MEMBER_DIMNAME, var1 ENS_MEMBER_DIMNAME (arange 1 (ensemble_size + 1)));
     (LEAD_TIME_DIMNAME, var1 LEAD_TIME_DIMNAME lead_times);
     (STATION_ID_VARNAME, var1 STATION_DIMNAME (map PyStr station_ids))] in
  let latitudes := default (nan_full [n_stations]) latitudes in
  let longitudes := default (nan_full [n_stations]) longitudes in
  let areas := default (nan_full [n_stations]) areas in
  (* f"{i}" of a string is the string *)
  let station_names := default station_ids station_names in
  let data_vars :=
    [(STATION_NAME_VARNAME, var1 STATION_DIMNAME (map PyStr station_names));
     (LAT_VARNAME, var1 STATION_DIMNAME latitudes);
     (LON_VARNAME, var1 STATION_DIMNAME longitudes);
     (AREA_VARNAME, var1 STATION_DIMNAME areas)] in
  let nc_attributes :=
    match nc_attributes with
    | Some a => if bool_decide (a = ∅) then stf2_default_attributes else a
    | None => stf2_default_attributes
    end in
  xr_Dataset data_vars coords nc_attributes.

(** ** [variables.py]: variable definitions and their allocation *)

(** A variable definition, as built by [create_variable_definition]: a
    dictionary with the keys [name], [longname], [units], [dim_type],
    [missval], [precision] and [attributes]. *)
Record VarDef := mk_VarDef {
  vd_name : string;
  vd_longname : string;
  vd_units : string;
  vd_dim_type : string;
  vd_missval : pyval;
  vd_precision : string;
  vd_attributes : list (string * pyval)
}.

(** [create_variable_definition]; its defaults are units "mm", missval
    -9999.0, precision "double" and dim_type "4" (the float missing value
    is written as the integer -9999 here). *)
Definition create_variable_definition (name longname units : string) (missval : pyval)
    (precision dim_type : string) (var_attribute : list (string * pyval)) : VarDef :=
  mk_VarDef name longname units dim_type missval precision var_attribute.

(** A dimension as [create_data_variable] and [create_mandatory_vardefs]
    read it: [d[0]] its name, [d[1]] its values, [d[2]["longname"]]. *)
Record nc_dim := mk_nc_dim {
  nd_name : string;
  nd_values : list pyval;
  nd_longname : string
}.

Record efts_dims := mk_efts_dims {
  time_dim_ : nc_dim;
  lead_time_dim_ : nc_dim;
  station_dim_ : nc_dim;
  str_dim_ : nc_dim;
  ensemble_dim_ : nc_dim
}.

(** [time_dim_info]: the units and the values of the time axis. *)
Record time_dim_info := mk_time_dim_info {
  tdi_units : string;
  tdi_values : list pyval
}.

(** Modelled from the spec: [efts_io.dimensions._create_nc_dims] is not
    among the sources.  The spec fixes the canonical axis names lead_time,
    station, ens_member, time and str_len; the time axis takes the given
    time values, the other axes are numbered from 1 and the string-length
    axis has 30 positions. *)
Definition _create_nc_dims (tdi : time_dim_info) (num_stations lead_length ensemble_length : nat)
  : efts_dims :=
  {| time_dim_ := mk_nc_dim TIME_DIMNAME (tdi_values tdi) "time";
     lead_time_dim_ := mk_nc_dim LEAD_TIME_DIMNAME (arange 1 (lead_length + 1)) "lead time";
     station_dim_ := mk_nc_dim STATION_DIMNAME (arange 1 (num_stations + 1)) "station";
     str_dim_ := mk_nc_dim "str_len" (arange 1 31) "string length";
     ensemble_dim_ := mk_nc_dim ENS_MEMBER_DIMNAME (arange 1 (ensemble_length + 1)) "ensemble member" |}.

(** [create_data_variable(data_var_def, dimensions)]: an [xr.Variable]
    on the dimensions' names, with one (uninitialised, here [None]) value
    per cell of the dimensions' lengths.  [dimnames[0]] on no dimension
    raises [IndexError]; dimension names are strings by construction. *)
Definition create_data_variable (x : VarDef) (dimensions : list nc_dim) : py_result xvar :=
  let dimnames := map nd_name dimensions in
  match dimnames with
  | [] => raise (IndexError "list index out of range")
  | _ :: _ =>
    let shape := map (fun d => length (nd_values d)) dimensions in
    Ok (mk_xvar dimnames shape (repeat PyNone (prod shape)))
  end.

(** The names [stations_dim_name], [lead_time_dim_name] and
    [ensemble_member_dim_name] that [variables.py] imports from
    [conventions.py]; that module defines [STATION_DIMNAME],
    [LEAD_TIME_DIMNAME] and [ENS_MEMBER_DIMNAME] and none of these three,
    so the import itself fails with [ImportError].  The functions below
    are modelled with the names bound to the conventions' dimension names. *)
Definition stations_dim_name := STATION_DIMNAME.
Definition lead_time_dim_name := LEAD_TIME_DIMNAME.
Definition ensemble_member_dim_name := ENS_MEMBER_DIMNAME.

(** [create_mandatory_vardefs]: the six metadata variables.  The values of
    [np.empty_like(..., dtype=float)] are unspecified, written [nan] here;
    those of the byte array are [b""]. *)
Definition create_mandatory_vardefs (station_dim str_dim ensemble_dim lead_time_dim : nc_dim)
    (lead_time_tstep : string) : gmap string xvar :=
  let nst := length (nd_values station_dim) in
  let nstr := length (nd_values str_dim) in
  list_to_map
    [("station_ids_var", mk_xvar [stations_dim_name] [nst] (nd_values station_dim));
     ("station_names_var", mk_xvar [nd_name str_dim; stations_dim_name] [nstr; nst]
                             (repeat (PyStr "") (nstr * nst)));
     ("ensemble_var", var1 ensemble_member_dim_name (nd_values ensemble_dim));
     ("lead_time_var", var1 lead_time_dim_name (nd_values lead_time_dim));
     ("latitude_var", mk_xvar [stations_dim_name] [nst] (repeat PyNaN nst));
     ("longitude_var", mk_xvar [stations_dim_name] [nst] (repeat PyNaN nst))].

(** A row of the optional-variables data frame. *)
Record OptRow := mk_OptRow {
  or_name : string;
  or_units : string;
  or_missval : pyval;
  or_longname : string;
  or_precision : string
}.

(** [create_optional_vardefs]: one dictionary per row (a pandas Series
    indexed by row number), [dim] being [list(station_dim)]. *)
Record OptVarDef := mk_OptVarDef {
  ov_name : string;
  ov_units : string;
  ov_dim : nc_dim;
  ov_missval : pyval;
  ov_longname : string;
  ov_prec : string
}.

Definition create_optional_vardefs (station_dim : nc_dim) (vars_def : list OptRow)
  : list (nat * OptVarDef) :=
  zip (seq 0 (length vars_def))
      (map (fun vd => mk_OptVarDef (or_name vd) (or_units vd) station_dim
                        (or_missval vd) (or_longname vd) (or_precision vd)) vars_def).

(** The result of [create_efts_variables]: the dictionary with the keys
    [metadatavars] and [datavars]; [metadatavars] is [None] where the code
    stores [None]. *)
Record efts_variables := mk_efts_variables {
  metadatavars : option (gmap string xvar);
  datavars : gmap string xvar
}.

(** [[x for x in data_var_def.values() if x["dim_type"] == code]]. *)
Definition with_dim_type (code : string) (values : list VarDef) : list VarDef :=
  List.filter (fun x => String.eqb (vd_dim_type x) code) values.

(** [{x["name"]: create_data_variable(x, dims) for x in defs}], evaluated
    before the dictionary it updates. *)
Definition allocate (defs : list VarDef) (dims : list nc_dim)
  : py_result (list (string * xvar)) :=
  mapM (fun x => v ← create_data_variable x dims; mret (vd_name x, v)) defs.

(** [d.update(items)], items in order. *)
Definition dict_update {V} (d : gmap string V) (items : list (string * V)) : gmap string V :=
  foldl (fun m kv => <[kv.1 := kv.2]> m) d items.

(** [create_efts_variables]; [data_var_def] is the dictionary as its list
    of (key, definition) pairs in insertion order.  When optional variables
    are given, [variables_metadata.update(...)] returns [None], which the
    code assigns to [variables_metadata]. *)
Definition create_efts_variables (data_var_def : list (string * VarDef)) (tdi : time_dim_info)
    (num_stations lead_length ensemble_length : nat) (optional_vars : option (list OptRow))
    (lead_time_tstep : string) : py_result efts_variables :=
  let dims := _create_nc_dims tdi num_stations lead_length ensemble_length in
  let time_dim := time_dim_ dims in
  let lead_time_dim := lead_time_dim_ dims in
  let station_dim := station_dim_ dims in
  let str_dim := str_dim_ dims in
  let ensemble_dim := ensemble_dim_ dims in
  let mandatory_var_ncdefs :=
    create_mandatory_vardefs station_dim str_dim ensemble_dim lead_time_dim lead_time_tstep in
  let variables_metadata : option (gmap string xvar) :=
    match optional_vars with
    | None => Some mandatory_var_ncdefs
    | Some ov =>
      (* [dict.update] returns [None] *)
      let _optional_var_ncdefs := create_optional_vardefs station_dim ov in
      None
    end in
  let values := map snd data_var_def in
  let unknown_dims :=
    List.filter (fun x => negb (py_in (vd_dim_type x) ["2"; "3"; "4"])) values in
  if Nat.ltb 0 (length unknown_dims) then
    m1 ← py_add (PyStr "Invalid dimension specifications for ")
                (PyInt (Z.of_nat (length unknown_dims)));
    m2 ← py_add m1 (PyStr " variables. Only supported are characters 2, 3, 4");
    raise (ValueError (py_str_of m2))
  else
    let ens_fcast_data_var_def := with_dim_type "4" values in
    let ens_data_var_def := with_dim_type "3" values in
    let point_data_var_def := with_dim_type "2" values in
    a4 ← allocate ens_fcast_data_var_def [lead_time_dim; station_dim; ensemble_dim; time_dim];
    let data_variables := dict_update ∅ a4 in
    a3 ← allocate ens_data_var_def [station_dim; ensemble_dim; time_dim];
    let data_variables := dict_update data_variables a3 in
    a2 ← allocate point_data_var_def [station_dim; time_dim];
    let data_variables := dict_update data_variables a2 in
    mret (mk_efts_variables variables_metadata data_variables).

(** ** [wrapper.py]: the data set wrapper *)

Record EftsDataSet := mk_EftsDataSet {
  time_dim : option (list pyval);
  time_zone : string;
  time_zone_timestamps : bool;
  e_STATION_DIMNAME : string;
  stations_varname : string;
  e_LEAD_TIME_DIMNAME : string;
  e_ENS_MEMBER_DIMNAME : string;
  identifiers_dimensions : list string;
  data : xdataset
}.

(** [EftsDataSet(data)] for an in-memory [xr.Dataset]. *)
Definition EftsDataSet_of_dataset (d : xdataset) : EftsDataSet :=
  mk_EftsDataSet None "UTC" true STATION_DIMNAME STATION_ID_VARNAME
    LEAD_TIME_DIMNAME ENS_MEMBER_DIMNAME [] d.

(** [get_station_count]: the body evaluates [self.data.dims[station]]
    and has no [return] statement. *)
Definition get_station_count (self : EftsDataSet) : py_result pyval :=
  match ds_dims (data self) !! e_STATION_DIMNAME self with
  | None => raise (KeyError (e_STATION_DIMNAME self))
  | Some _ => Ok PyNone
  end.

Definition get_stations_varname (self : EftsDataSet) : string := STATION_ID_VARNAME.

Definition _get_values (self : EftsDataSet) (variable_name : string) : py_result (ndarray pyval) :=
  if negb (py_in variable_name conventional_varnames) then
    raise (ValueError (variable_name ++ " cannot be directly retrieved. Must be in " ++
                       String.concat ", " conventional_varnames))
  else
    match ds_variables (data self) !! variable_name with
    | Some v => Ok (values_of v)
    | None => raise (KeyError variable_name)
    end.

(** [np.where(condition)[0]]: for each true cell of the condition, in
    row-major order, its index along the first axis.  A 0-d condition is
    read as a vector of one cell, as NumPy before 2.1 reads it. *)
Definition np_where0 (condition : ndarray bool) : list nat :=
  let c := nd_cells condition in
  map (fun k => k / prod (tl (nd_shape condition)))
      (List.filter (fun k => nth k c false) (seq 0 (length c))).

(** [_first_where(condition)]. *)
Definition _first_where_nd (condition : ndarray bool) : py_result nat :=
  let x := np_where0 condition in
  if Nat.ltb (length x) 1
  then raise (ValueError "first_where: Invalid condition, no element is true")
  else Ok (nth 0 x 0).

(** [_first_where] on a one-dimensional condition: the first index where
    it holds. *)
Definition _first_where (condition : list bool) : py_result nat :=
  _first_where_nd (mk_ndarray [length condition] condition).

(** [index_for_identifier(identifier, dimension_id=None)]; [None] for
    the identifier is Python's [None]. *)
Definition index_for_identifier (self : EftsDataSet) (identifier : option pyval)
    (dimension_id : option string) : py_result nat :=
  let dimension_id := default (get_stations_varname self) dimension_id in
  identValues ← _get_values self dimension_id;
  match identifier with
  | None => raise (Exception "Identifier cannot be NA")
  | Some i => _first_where_nd (nd_eq identValues i)
  end.

(** [index_for_time(dateTime)]: [self.data.time == dateTime]. *)
Definition index_for_time (self : EftsDataSet) (dateTime : pyval) : py_result nat :=
  match ds_variables (data self) !! TIME_DIMNAME with
  | None => raise (AttributeError "'Dataset' object has no attribute 'time'")
  | Some v => _first_where_nd (nd_eq (values_of v) dateTime)
  end.

(** [self.data.sizes[name]] for each name of a tuple. *)
Definition sizes_of (d : xdataset) (names : list string) : py_result (list nat) :=
  mapM (fun n => match ds_dims d !! n with
                 | Some s => Ok s
                 | None => raise (KeyError n)
                 end) names.

(** The coordinates of a data set, in order, with their variables. *)
Definition coords_of (d : xdataset) : list (string * xvar) :=
  omap (fun k => pair k <$> ds_variables d !! k) (ds_coords d).

(** Python's [repr] of a tuple of strings. *)
Definition py_tuple_repr (xs : list string) : string :=
  match xs with
  | [x] => "('" ++ x ++ "',)"
  | _ => "(" ++ String.concat ", " (map (fun x => "'" ++ x ++ "'") xs) ++ ")"
  end.

(** The size check of [_check_coords_dims] for the coordinate [k]:
    [for d, s in v.sizes.items(): if s != sizes[d]: raise ...]. *)
Fixpoint check_coord_sizes (sizes : gmap string nat) (k : string) (dims : list string)
    (shape : list nat) : py_result unit :=
  match dims, shape with
  | a :: dims', s :: shape' =>
    let sa := default 0 (sizes !! a) in
    if Nat.eqb s sa then check_coord_sizes sizes k dims' shape'
    else raise (ValueError ("conflicting sizes for dimension '" ++ a ++ "': length " ++
                            pretty sa ++ " on the data but length " ++ pretty s ++
                            " on coordinate '" ++ k ++ "'"))
  | _, _ => Ok ()
  end.

(** [_check_coords_dims(shape, coords, dims)], run by the [xr.DataArray]
    constructor on the coordinates it is given: each must lie on
    dimensions of the new array ([sizes = dict(zip(dims, shape))]), with
    the sizes the array gives them. *)
Fixpoint _check_coords_dims (shape : list nat) (coords : list (string * xvar))
    (dims : list string) : py_result unit :=
  match coords with
  | [] => Ok ()
  | (k, v) :: coords' =>
    if negb (forallb (fun a => py_in a dims) (xv_dims v))
    then raise (ValueError ("coordinate " ++ k ++ " has dimensions " ++
                            py_tuple_repr (xv_dims v) ++
                            ", but these are not a subset of the DataArray dimensions " ++
                            py_tuple_repr dims))
    else
      _ ← check_coord_sizes (list_to_map (zip dims shape)) k (xv_dims v) (xv_shape v);
      _check_coords_dims shape coords' dims
  end.

(** [self.data[varname] = ...] of the array
    [xr.DataArray(data=nan_full(shape), coords=self.data.coords, dims=names, ...)]
    once built: the sizes come from the data set, so its dimensions are
    unchanged, and the coordinates are its own. *)
Definition set_data_array (d : xdataset) (varname : string) (names : list string)
    (shape : list nat) : xdataset :=
  mk_xdataset (ds_dims d) (<[varname := mk_xvar names shape (nan_full shape)]> (ds_variables d))
    (ds_coords d) (ds_attrs d).

Definition four_dims_names := [LEAD_TIME_DIMNAME; STATION_DIMNAME; ENS_MEMBER_DIMNAME; TIME_DIMNAME].
Definition three_dims_names := [STATION_DIMNAME; ENS_MEMBER_DIMNAME; TIME_DIMNAME].
Definition two_dims_names := [STATION_DIMNAME; TIME_DIMNAME].

(** [EftsDataSet.create_data_variables(data_var_def)]: the method mutates
    [self.data]; the model returns the updated wrapper.  Each array is
    built with [coords=self.data.coords], the coordinates of the data set
    as it is at that point, which the constructor checks. *)
Definition create_data_variables (self : EftsDataSet) (data_var_def : list (string * VarDef))
  : py_result EftsDataSet :=
  let values := map snd data_var_def in
  let ens_fcast_data_var_def := with_dim_type "4" values in
  let ens_data_var_def := with_dim_type "3" values in
  let point_data_var_def := with_dim_type "2" values in
  four_dims_shape ← sizes_of (data self) four_dims_names;
  three_dims_shape ← sizes_of (data self) three_dims_names;
  two_dims_shape ← sizes_of (data self) two_dims_names;
  d ← foldl (fun acc (g : list VarDef * list nat * list string) =>
               let '(vardefs, dims_shape, dims_names) := g in
               foldl (fun acc x =>
                        d ← acc;
                        _ ← _check_coords_dims dims_shape (coords_of d) dims_names;
                        Ok (set_data_array d (vd_name x) dims_names dims_shape))
                     acc vardefs)
            (Ok (data self))
            [(ens_fcast_data_var_def, four_dims_shape, four_dims_names);
             (ens_data_var_def, three_dims_shape, three_dims_names);
             (point_data_var_def, two_dims_shape, two_dims_names)];
  mret (mk_EftsDataSet (time_dim self) (time_zone self) (time_zone_timestamps self)
          (e_STATION_DIMNAME self) (stations_varname self) (e_LEAD_TIME_DIMNAME self)
          (e_ENS_MEMBER_DIMNAME self) (identifiers_dimensions self) d).


(** The [data_var_definitions] argument of [create_efts], by the check
    the function makes on it. *)
Inductive data_var_definitions_arg :=
| DefsDataFrame
| DefsDict (defs : list (string * VarDef)).

(** The file system, as the paths that exist and their contents. *)
Definition filesystem := gmap string string.

(** [create_efts]: returns the outcome and the file system after the call. *)
Definition create_efts (fs : filesystem) (fname : string) (tdi : time_dim_info)
    (data_var_definitions : data_var_definitions_arg) (stations_ids : option (list Z))
    (station_names : option (list string)) (nc_attributes : option (gmap string string))
    (optional_vars : option (list OptRow)) (lead_length ensemble_length : nat)
    (lead_time_tstep : string) : py_result EftsDataSet * filesystem :=
  match stations_ids with
  | None => (raise (ValueError
      "You must provide station identifiers when creating a new EFTS netCDF data set"), fs)
  | Some ids =>
  match nc_attributes with
  | None => (raise (ValueError
      ("You must provide a suitable list for nc_attributes, including" ++
       String.concat ", " mandatory_global_attributes)), fs)
  | Some _ =>
  if bool_decide (is_Some (fs !! fname)) then
    (raise (FileExistsError ("File already exists: " ++ fname)), fs)
  else
  match data_var_definitions with
  | DefsDataFrame => (raise (ValueError
      "data_var_definitions should be a list of dictionaries, not a pandas DataFrame"), fs)
  | DefsDict defs =>
    (varDefs ← create_efts_variables defs tdi (length ids) lead_length ensemble_length
                 optional_vars lead_time_tstep;
     d ← xr_Dataset (map_to_list (datavars varDefs))
                    (* [coords=None]: no coordinates *)
                    (map_to_list (default ∅ (metadatavars varDefs)))
                    {[ "description" := "TODO: put the right attributes" ]};
     mret (EftsDataSet_of_dataset d), fs)
  end end end.


(** ** The inputs of [tests/test_create.py] *)

(** 31 daily issue times (as day numbers), stations "a" and "b", lead
    times [np.arange(1, 4)], an ensemble of 10; everything else [None]. *)
Definition test_issue_times : list pyval := map (fun k => PyInt (Z.of_nat k)) (seq 0 31).
Definition test_station_ids : list string := ["a"; "b"].
Definition test_lead_times : list pyval := arange 1 4.

Definition test_xr_efts : py_result xdataset :=
  xr_efts test_issue_times test_station_ids (Some test_lead_times) "hours" 10
    None None None None None.

Definition test_dataset : xdataset :=
  match test_xr_efts with Ok d => d | Err _ => mk_xdataset ∅ ∅ [] ∅ end.

Definition test_time_dim_info : time_dim_info :=
  mk_time_dim_info "days since 2000-01-01 00:00:00" test_issue_times.

(** A small forecast data set: two times, two stations "a" and "b", two
    ensemble members and two lead times, and the forecast variable
    "rain_fcast" on (lead_time, station, ens_member, time), whose 16 cells
    hold the integers 0 to 15 in row-major order; its coordinates are the
    time and the station identifiers. *)
Definition test_forecast_dataset : xdataset :=
  mk_xdataset
    (list_to_map [(LEAD_TIME_DIMNAME, 2); (STATION_DIMNAME, 2); (ENS_MEMBER_DIMNAME, 2);
                  (TIME_DIMNAME, 2)])
    (list_to_map [(TIME_DIMNAME, var1 TIME_DIMNAME [PyInt 0; PyInt 1]);
                  (STATION_ID_VARNAME, var1 STATION_DIMNAME [PyStr "a"; PyStr "b"]);
                  ("rain_fcast", mk_xvar four_dims_names [2; 2; 2; 2]
                                   (map (fun k => PyInt (Z.of_nat k)) (seq 0 16)))])
    [TIME_DIMNAME; STATION_ID_VARNAME]
    ∅.

(** ** [attributes.py]: global attributes *)

(** [create_global_attributes(title, institution, source, catchment,
    comment, strict=False)]. *)
Definition create_global_attributes (title institution source catchment comment : string)
    (strict : bool) : py_result (gmap string string) :=
  if strict && String.eqb title "" then
    raise (ValueError "Empty title is not accepted as a valid attribute")
  else
    Ok (list_to_map [(TITLE_ATTR_KEY, title); (INSTITUTION_ATTR_KEY, institution);
                     (SOURCE_ATTR_KEY, source); (CATCHMENT_ATTR_KEY, catchment);
                     (COMMENT_ATTR_KEY, comment)]).

(** ** [variables.py]: definitions from a data frame *)

(** A row of the data frame given to [create_variable_definitions]: the
    six named columns, and the other columns with their values. *)
Record VarRow := mk_VarRow {
  vr_name : string;
  vr_longname : string;
  vr_units : string;
  vr_missval : pyval;
  vr_precision : string;
  vr_dimensions : string;
  vr_others : list (string * pyval)
}.

(** [create_variable_definitions(dframe)]: [dframe.apply(f, axis=1)] gives
    the definitions in row order (a Series of dictionaries) and the
    dictionary comprehension keys them by name.  On a frame without rows,
    [apply] calls [f] once on a row of NaN to infer the result, which is a
    dictionary, so it returns an empty Series: the result is [{}]. *)
Definition create_variable_definitions (dframe : list VarRow) : py_result (gmap string VarDef) :=
  let f (var_def : VarRow) :=
    create_variable_definition (vr_name var_def) (vr_longname var_def) (vr_units var_def)
      (vr_missval var_def) (vr_precision var_def) (vr_dimensions var_def)
      (vr_others var_def) in
  let variables_defs := map f dframe in
  Ok (dict_update ∅ (map (fun v => (vd_name v, v)) variables_defs)).

(** ** [wrapper.py]: the remaining accessors *)

(** [get_ensemble_size]: [self.data.dims[self.ENS_MEMBER_DIMNAME]]. *)
Definition get_ensemble_size (self : EftsDataSet) : py_result nat :=
  match ds_dims (data self) !! e_ENS_MEMBER_DIMNAME self with
  | Some s => Ok s
  | None => raise (KeyError (e_ENS_MEMBER_DIMNAME self))
  end.

(** [get_lead_time_count]: [self.data.dims[self.LEAD_TIME_DIMNAME]]. *)
Definition get_lead_time_count (self : EftsDataSet) : py_result nat :=
  match ds_dims (data self) !! e_LEAD_TIME_DIMNAME self with
  | Some s => Ok s
  | None => raise (KeyError (e_LEAD_TIME_DIMNAME self))
  end.

(** [get_time_dim]: [self.data.time.values]. *)
Definition get_time_dim (self : EftsDataSet) : py_result (list pyval) :=
  match ds_variables (data self) !! TIME_DIMNAME with
  | Some v => Ok (xv_values v)
  | None => raise (AttributeError "'Dataset' object has no attribute 'time'")
  end.

(** A positional index of [DataArray.__getitem__]: an integer or a slice
    [:stop]. *)
Inductive py_index :=
| IInt (i : nat)
| ISlice (stop : nat).

(** The positions each axis keeps, and whether the axis stays in the
    result (an integer index removes it); the axes after the key are kept
    whole.  An integer out of range raises NumPy's [IndexError]. *)
Fixpoint axis_selections (key : list py_index) (shape : list nat) (axis : nat)
  : py_result (list (list nat * bool)) :=
  match key, shape with
  | [], _ => Ok (map (fun s => (seq 0 s, true)) shape)
  | _ :: _, [] => raise (IndexError "too many indices")
  | IInt i :: key', s :: shape' =>
    if Nat.ltb i s then
      rest ← axis_selections key' shape' (S axis); Ok (([i], false) :: rest)
    else raise (IndexError ("index " ++ pretty i ++ " is out of bounds for axis " ++
                            pretty axis ++ " with size " ++ pretty s))
  | ISlice n :: key', s :: shape' =>
    rest ← axis_selections key' shape' (S axis); Ok ((seq 0 (Nat.min n s), true) :: rest)
  end.

(** Row-major (C order) offset of a multi-index, NumPy's layout of
    [values]. *)
Fixpoint rm_flat (shape idx : list nat) : nat :=
  match shape, idx with
  | _ :: ss, i :: is => i * prod ss + rm_flat ss is
  | _, _ => 0
  end.

(** The multi-indices of a selection, in row-major order. *)
Fixpoint cart (ps : list (list nat)) : list (list nat) :=
  match ps with
  | [] => [[]]
  | p :: ps' => flat_map (fun i => map (cons i) (cart ps')) p
  end.

(** [da[key]] with a tuple of positional indices; xarray refuses a key
    longer than the number of dimensions before looking at the indices. *)
Definition isel (x : xvar) (key : list py_index) : py_result xvar :=
  if Nat.ltb (length (xv_shape x)) (length key) then raise (IndexError "too many indices")
  else
    sels ← axis_selections key (xv_shape x) 0;
    let kept := List.filter (fun ds : string * (list nat * bool) => ds.2.2)
                            (combine (xv_dims x) sels) in
    Ok (mk_xvar (map fst kept) (map (fun ds => length ds.2.1) kept)
          (map (fun idx => nth (rm_flat (xv_shape x) idx) (xv_values x) PyNone)
               (cart (map fst sels)))).

(** [get_ensemble_forecasts(variable_name, identifier, dimension_id,
    start_time, lead_time_count)]; [None] for an optional argument is
    Python's [None].  [self.data.get(variable_name)] is [None] for a
    missing variable, and subscripting it raises [TypeError]. *)
Definition get_ensemble_forecasts (self : EftsDataSet) (variable_name : string)
    (identifier : option pyval) (dimension_id : option string)
    (start_time : option pyval) (lead_time_count : option nat) : py_result xvar :=
  let dimension_id := default (get_stations_varname self) dimension_id in
  td ← get_time_dim self;
  start_time ← match start_time with
               | Some t => Ok t
               | None => match td with
                         | t :: _ => Ok t
                         | [] => raise (IndexError "index 0 is out of bounds for axis 0 with size 0")
                         end
               end;
  n_ens ← get_ensemble_size self;
  index_id ← index_for_identifier self identifier (Some dimension_id);
  _ ← check_index_found (Some index_id) (py_str_of (default PyNone identifier)) dimension_id;
  lead_time_count ← match lead_time_count with
                    | Some c => Ok c
                    | None => get_lead_time_count self
                    end;
  indx_time ← index_for_time self start_time;
  match ds_variables (data self) !! variable_name with
  | None => raise (TypeError "'NoneType' object is not subscriptable")
  | Some v => isel v [IInt indx_time; ISlice n_ens; IInt index_id; ISlice lead_time_count]
  end.

(** ** [wrapper.py]: station names stored as character arrays *)

(** A Python string, as its code points. *)
Definition pystr := list Z.

(** An element given to [byte_to_string]: a Python [int], a [bytes]
    object (NumPy's [bytes_] is one), or a value of another type, by the
    name of its type. *)
Inductive byte_arg :=
| BInt (z : Z)
| BBytes (b : list Z)
| BOther (type_name : string).

Definition in_range (lo hi b : Z) : bool := Z.leb lo b && Z.leb b hi.

(** Strict UTF-8 decoding (Unicode's well-formed byte sequences, as
    Python's codec accepts them); [None] when the bytes are not UTF-8. *)
Fixpoint utf8_decode (l : list Z) : option pystr :=
  match l with
  | [] => Some []
  | b0 :: r =>
    if in_range 0 127 b0 then cons b0 <$> utf8_decode r
    else if in_range 194 223 b0 then
      match r with
      | c1 :: r1 =>
        if in_range 128 191 c1 then cons ((b0 - 192) * 64 + (c1 - 128))%Z <$> utf8_decode r1
        else None
      | [] => None
      end
    else if in_range 224 239 b0 then
      match r with
      | c1 :: c2 :: r2 =>
        let lo := (if Z.eqb b0 224 then 160 else 128)%Z in
        let hi := (if Z.eqb b0 237 then 159 else 191)%Z in
        if in_range lo hi c1 && in_range 128 191 c2
        then cons ((b0 - 224) * 4096 + (c1 - 128) * 64 + (c2 - 128))%Z <$> utf8_decode r2
        else None
      | _ => None
      end
    else if in_range 240 244 b0 then
      match r with
      | c1 :: c2 :: c3 :: r3 =>
        let lo := (if Z.eqb b0 240 then 144 else 128)%Z in
        let hi := (if Z.eqb b0 244 then 143 else 191)%Z in
        if in_range lo hi c1 && in_range 128 191 c2 && in_range 128 191 c3
        then cons ((b0 - 240) * 262144 + (c1 - 128) * 4096 + (c2 - 128) * 64 + (c3 - 128))%Z
               <$> utf8_decode r3
        else None
      | _ => None
      end
    else None
  end.

(** [str(x, encoding="UTF-8")] on bytes.  The [UnicodeDecodeError] it
    raises is a subclass of [ValueError]; its message (byte, position and
    reason) is not modelled. *)
Definition decode_utf8 (b : list Z) : py_result pystr :=
  match utf8_decode b with
  | Some s => Ok s
  | None => raise (ValueError "'utf-8' codec can't decode bytes")
  end.

(** [byte_to_string(x)]: an [int] becomes [x.to_bytes(1, "little")]. *)
Definition byte_to_string (x : byte_arg) : py_result pystr :=
  match x with
  | BInt z =>
    if Z.gtb z 255 || Z.ltb z 0
    then raise (ValueError "Integer value to bytes: must be in range [0-255]")
    else decode_utf8 [z]
  | BBytes b => decode_utf8 b
  | BOther t => raise (TypeError ("Cannot cast type <class '" ++ t ++ "'> to bytes"))
  end.

(** [str.isspace] on one code point: the characters of Unicode's
    whitespace categories that Python strips. *)
Definition py_isspace (c : Z) : bool :=
  in_range 9 13 c || in_range 28 32 c || Z.eqb c 133 || Z.eqb c 160 ||
  Z.eqb c 5760 || in_range 8192 8202 c || Z.eqb c 8232 || Z.eqb c 8233 ||
  Z.eqb c 8239 || Z.eqb c 8287 || Z.eqb c 12288.

Fixpoint lstrip_ws (s : pystr) : pystr :=
  match s with
  | c :: t => if py_isspace c then lstrip_ws t else s
  | [] => []
  end.

(** [s.strip()]. *)
Definition py_strip (s : pystr) : pystr := rev (lstrip_ws (rev (lstrip_ws s))).

(** [byte_array_to_string(x)]: the list comprehension converts every
    element, in order, before [join]. *)
Definition byte_array_to_string (x : list byte_arg) : py_result pystr :=
  ss ← mapM byte_to_string x;
  Ok (py_strip (concat ss)).

(** [byte_stations_to_str(byte_names)], one row per station. *)
Definition byte_stations_to_str (byte_names : list (list byte_arg)) : py_result (list pystr) :=
  mapM byte_array_to_string byte_names.

(* ================================================================= *)
(** * Properties *)
(* ================================================================= *)

(** In the proofs, [++] is the concatenation of lists. *)
Open Scope list_scope.

(** ** Column-major offsets *)

Lemma prod_cons d ds : prod (d :: ds) = d * prod ds.
Proof. reflexivity. Qed.

Lemma length_unflat ds k : length (unflat ds k) = length ds.
Proof. revert k; induction ds; intros k; simpl; auto. Qed.

Lemma flat_unflat ds k : k < prod ds -> flat ds (unflat ds k) = k.
Proof.
  revert k; induction ds as [|d ds IH]; intros k Hk; simpl in *; [lia|].
  assert (d <> 0) by (intros ->; lia).
  rewrite IH.
  - pose proof (Nat.div_mod_eq k d). lia.
  - apply Nat.Div0.div_lt_upper_bound. lia.
Qed.

Lemma unflat_valid ds k : k < prod ds -> valid_index ds (unflat ds k).
Proof.
  revert k; induction ds as [|d ds IH]; intros k Hk; simpl in *; [done|].
  assert (d <> 0) by (intros ->; lia).
  split; [apply Nat.mod_upper_bound; lia|].
  apply IH, Nat.Div0.div_lt_upper_bound. lia.
Qed.

Lemma flat_lt ds idx : valid_index ds idx -> flat ds idx < prod ds.
Proof.
  revert idx; induction ds as [|d ds IH]; intros [|i idx] Hv; simpl in *; try tauto; [lia|].
  destruct Hv as [Hi Hv]. specialize (IH _ Hv). nia.
Qed.

Lemma unflat_flat ds idx : valid_index ds idx -> unflat ds (flat ds idx) = idx.
Proof.
  revert idx; induction ds as [|d ds IH]; intros [|i idx] Hv; simpl in *; try tauto.
  destruct Hv as [Hi Hv].
  replace (i + d * flat ds idx) with (i + flat ds idx * d) by lia.
  rewrite Nat.Div0.mod_add, Nat.div_add by lia.
  rewrite Nat.mod_small, Nat.div_small by done. simpl. f_equal. apply IH, Hv.
Qed.

Lemma valid_index_length ds idx : valid_index ds idx -> length idx = length ds.
Proof.
  revert idx; induction ds; intros [|i idx] Hv; simpl in *; try tauto.
  f_equal. apply IHds, Hv.
Qed.

Lemma valid_index_nth ds idx :
  length idx = length ds ->
  (forall m, m < length ds -> nth m idx 0 < nth m ds 0) ->
  valid_index ds idx.
Proof.
  revert idx; induction ds as [|d ds IH]; intros [|i idx] Hl Hm; simpl in *; try done; try lia.
  split; [apply (Hm 0); lia|].
  apply IH; [lia|]. intros m Hm'. apply (Hm (S m)). lia.
Qed.

Lemma valid_index_nth_lt ds idx m :
  valid_index ds idx -> m < length ds -> nth m idx 0 < nth m ds 0.
Proof.
  revert idx m; induction ds as [|d ds IH]; intros [|i idx] m Hv Hm; simpl in *; try tauto; [lia|].
  destruct m; [tauto|]. apply IH; [tauto|lia].
Qed.

(** Trailing axes of extent 1 do not change offsets. *)
Lemma flat_app_ones ds j k :
  length j = length ds -> flat (ds ++ repeat 1 k) (j ++ repeat 0 k) = flat ds j.
Proof.
  revert j; induction ds as [|d ds IH]; intros [|i j] Hl; simpl in *; try lia.
  - induction k; simpl; [done|]. rewrite IHk. lia.
  - rewrite IH; lia.
Qed.

Lemma prod_app_ones ds k : prod (ds ++ repeat 1 k) = prod ds.
Proof.
  induction ds; simpl.
  - induction k; simpl; lia.
  - unfold prod in *. simpl in *. lia.
Qed.

Lemma nth_map_seq {B} (f : nat -> B) len k d :
  k < len -> nth k (map f (seq 0 len)) d = f k.
Proof.
  intros Hk. rewrite (nth_indep _ d (f 0)) by (rewrite length_map, length_seq; lia).
  rewrite map_nth, seq_nth by lia. done.
Qed.

Lemma nth_map_lt {B C} (f : B -> C) l q d d0 :
  q < length l -> nth q (map f l) d = f (nth q l d0).
Proof.
  intros Hq. rewrite (nth_indep _ d (f d0)) by (rewrite length_map; lia).
  apply map_nth.
Qed.

Lemma map_nth_seq {B} (l : list B) d :
  map (fun k => nth k l d) (seq 0 (length l)) = l.
Proof.
  apply (nth_ext _ _ d d); rewrite ?length_map, ?length_seq; [done|].
  intros k Hk. rewrite nth_map_seq; done.
Qed.

(** ** R vector helpers *)

Lemma r_in_spec x l : r_in x l = true <-> In x l.
Proof.
  unfold r_in. rewrite existsb_exists. split.
  - intros (y & Hy & Heq). apply String.eqb_eq in Heq. by subst.
  - intros H. exists x. split; [done|]. apply String.eqb_refl.
Qed.

Lemma r_in_false x l : r_in x l = false <-> ~ In x l.
Proof. rewrite <- r_in_spec. destruct (r_in x l); intuition congruence. Qed.

Lemma r_match_in t l :
  In t l -> exists p, r_match t l = Some p /\ p < length l /\ nth p l "" = t.
Proof.
  induction l as [|y l IH]; simpl; [tauto|]. intros Hin.
  destruct (String.eqb_spec t y) as [->|Hne].
  - exists 0. simpl. repeat split; try done; lia.
  - destruct Hin as [->|Hin]; [congruence|].
    destruct (IH Hin) as (p & Hp & Hlt & Hn). exists (S p).
    rewrite Hp. simpl. repeat split; try done; lia.
Qed.

Lemma r_match_nth l m :
  List.NoDup l -> m < length l -> r_match (nth m l "") l = Some m.
Proof.
  revert m; induction l as [|y l IH]; intros m Hnd Hm; simpl in *; [lia|].
  apply NoDup_cons_iff in Hnd as [Hy Hnd].
  destruct m as [|m].
  - by rewrite String.eqb_refl.
  - destruct (String.eqb_spec (nth m l "") y) as [Heq|Hne].
    + exfalso. apply Hy. rewrite <- Heq. apply nth_In. lia.
    + rewrite IH by (done || lia). done.
Qed.

Lemma r_unique_aux_nodup seen l :
  List.NoDup l -> (forall x, In x l -> ~ In x seen) -> r_unique_aux seen l = l.
Proof.
  revert seen; induction l as [|x l IH]; intros seen Hnd Hs; simpl; [done|].
  apply NoDup_cons_iff in Hnd as [Hx Hnd].
  assert (r_in x seen = false) as -> by (apply r_in_false, Hs; left; done).
  f_equal. apply IH; [done|].
  intros y Hy [->|Hy']; [done|]. apply (Hs y); [right|]; done.
Qed.

Lemma r_unique_nodup l : List.NoDup l -> r_unique l = l.
Proof. intros H. apply r_unique_aux_nodup; [done|]. simpl; tauto. Qed.

(** [setdiff] on a vector without repetition is a filter. *)
Lemma r_setdiff_nodup x y :
  List.NoDup x -> r_setdiff x y = List.filter (fun a => negb (r_in a y)) x.
Proof. intros H. apply r_unique_nodup, List.NoDup_filter, H. Qed.

Lemma r_setdiff_all_in x y :
  (forall a, In a x -> In a y) -> r_setdiff x y = [].
Proof.
  intros H. unfold r_setdiff.
  replace (List.filter _ x) with (@nil string); [done|].
  induction x as [|a x IH]; simpl; [done|].
  assert (r_in a y = true) as -> by (apply r_in_spec, H; left; done).
  simpl. apply IH. intros b Hb. apply H. right. done.
Qed.

Lemma filter_partition_perm (f : string -> bool) l :
  Permutation (List.filter f l ++ List.filter (fun a => negb (f a)) l) l.
Proof.
  induction l as [|a l IH]; simpl; [done|].
  destruct (f a); simpl.
  - by constructor.
  - symmetry. apply Permutation_cons_app. symmetry. done.
Qed.

Lemma all_found_map (f : string -> option nat) (g : string -> nat) l :
  (forall t, In t l -> f t = Some (g t)) ->
  all_found (map f l) = Some (map g l).
Proof.
  induction l as [|t l IH]; intros H; simpl; [done|].
  rewrite (H t) by (left; done). rewrite IH; [done|].
  intros u Hu. apply H. right. done.
Qed.

Lemma all_found_Some l p : all_found l = Some p -> l = map Some p.
Proof.
  revert p; induction l as [|[q|] l IH]; intros p H; simpl in *.
  - by injection H as <-.
  - destruct (all_found l) as [r|] eqn:E; simpl in H; [|discriminate].
    injection H as <-. simpl. f_equal. by apply IH.
  - discriminate.
Qed.

(** Where a position first occurs in a list of naturals. *)
Lemma index_of_nth (l : list nat) q m :
  q < length l -> nth q l 0 = m ->
  (forall q', q' < q -> nth q' l 0 <> m) -> index_of m l = q.
Proof.
  revert q; induction l as [|p l IH]; intros q Hq Hn Hb; simpl in *; [lia|].
  destruct q as [|q].
  - subst. by rewrite Nat.eqb_refl.
  - destruct (Nat.eqb_spec m p) as [->|Hne].
    + exfalso. apply (Hb 0); [lia|done].
    + f_equal. apply IH; [lia|done|]. intros q' Hq'. apply (Hb (S q')). lia.
Qed.

Lemma index_of_ge (l : list nat) L m :
  L <= length l -> (forall q', q' < L -> nth q' l 0 <> m) -> L <= index_of m l.
Proof.
  revert L; induction l as [|p l IH]; intros L HL Hb; simpl in *; [lia|].
  destruct L as [|L]; [lia|].
  destruct (Nat.eqb_spec m p) as [->|Hne].
  - exfalso. apply (Hb 0); [lia|done].
  - enough (L <= index_of m l) by lia.
    apply IH; [lia|]. intros q' Hq'. apply (Hb (S q')). lia.
Qed.

(** ** Axis positions of a [dim_names] vector without repetition *)

Section AxisPositions.
Variable dn : list string.
Hypothesis Hnd : List.NoDup dn.

Let pos (t : string) : nat := default 0 (r_match t dn).

Lemma pos_in t : In t dn -> r_match t dn = Some (pos t) /\ pos t < length dn /\ nth (pos t) dn "" = t.
Proof.
  intros Hin. destruct (r_match_in t dn Hin) as (p & Hp & Hlt & Hn).
  unfold pos. rewrite Hp. done.
Qed.

Lemma pos_nth m : m < length dn -> pos (nth m dn "") = m.
Proof. intros Hm. unfold pos. by rewrite r_match_nth. Qed.

Lemma map_pos_seq : map pos dn = seq 0 (length dn).
Proof.
  apply (nth_ext _ _ 0 0); rewrite ?length_map, ?length_seq; [done|].
  intros m Hm. rewrite (nth_indep _ 0 (pos "")) by (rewrite length_map; lia).
  rewrite map_nth, seq_nth, pos_nth; done.
Qed.

Variable target : list string.
Hypothesis Htnd : List.NoDup target.
Hypothesis Hin : forall t, In t target -> In t dn.

Let dropped := List.filter (fun a => negb (r_in a target)) dn.

Lemma target_dropped_perm : Permutation (target ++ dropped) dn.
Proof.
  eapply perm_trans; [|apply (filter_partition_perm (fun a => r_in a target))].
  apply Permutation_app_tail, Stdlib.Sorting.Permutation.NoDup_Permutation.
  - done.
  - apply List.NoDup_filter, Hnd.
  - intros t. rewrite filter_In, r_in_spec. naive_solver.
Qed.

Lemma perm_seq : Permutation (map pos (target ++ dropped)) (seq 0 (length dn)).
Proof. rewrite <- map_pos_seq. apply Permutation_map, target_dropped_perm. Qed.

(** The multi-index that [aperm] reads back is the original one. *)
Lemma old_index_project (ds idx : list nat) :
  length dn = length ds -> valid_index ds idx ->
  (forall m, m < length dn -> ~ In (nth m dn "") target -> nth m ds 0 = 1) ->
  old_index (map pos (target ++ dropped)) (length ds)
    (map (fun t => nth (pos t) idx 0) target ++ repeat 0 (length dropped)) = idx.
Proof.
  intros Hlen Hv Hdeg.
  pose proof (valid_index_length _ _ Hv) as Hil.
  set (perm := map pos (target ++ dropped)).
  assert (Hpl : length perm = length target + length dropped)
    by (unfold perm; rewrite length_map, length_app; done).
  assert (Hpn : forall q, q < length target -> nth q perm 0 = pos (nth q target "")).
  { intros q Hq. unfold perm. rewrite map_app, app_nth1 by (rewrite length_map; lia).
    rewrite (nth_indep _ 0 (pos "")) by (rewrite length_map; lia). by rewrite map_nth. }
  apply (nth_ext _ _ 0 0); unfold old_index; rewrite ?length_map, ?length_seq; [lia|].
  intros m Hm. rewrite nth_map_seq by done.
  destruct (In_dec string_dec (nth m dn "") target) as [Ht|Ht].
  - destruct (In_nth _ _ "" Ht) as (q & Hq & Hqn).
    rewrite (index_of_nth perm q m).
    + rewrite app_nth1 by (rewrite length_map; lia).
      rewrite (nth_map_lt _ _ _ _ "") by done.
      rewrite Hqn, pos_nth; [done|lia].
    + lia.
    + rewrite Hpn by done. rewrite Hqn, pos_nth; [done|lia].
    + intros q' Hq' Heq. rewrite Hpn in Heq by lia.
      assert (nth q' target "" = nth q target "") as Heqt.
      { rewrite Hqn. destruct (pos_in (nth q' target "")) as (_ & _ & Hn);
          [apply Hin, nth_In; lia|]. rewrite <- Hn, Heq. done. }
      apply (proj1 (NoDup_nth target "") Htnd q' q) in Heqt; lia.
  - assert (length target <= index_of m perm) as Hge.
    { apply index_of_ge; [lia|]. intros q' Hq' Heq. rewrite Hpn in Heq by done.
      apply Ht. destruct (pos_in (nth q' target "")) as (_ & _ & Hn);
        [apply Hin, nth_In; lia|]. rewrite <- Heq, Hn. apply nth_In. done. }
    assert (nth (index_of m perm) (map (fun t => nth (pos t) idx 0) target ++ repeat 0 (length dropped)) 0 = 0) as ->.
    { rewrite app_nth2 by (rewrite length_map; lia).
      destruct (Nat.lt_ge_cases (index_of m perm - length (map (fun t => nth (pos t) idx 0) target)) (length dropped)).
      - apply nth_repeat.
      - apply nth_overflow. rewrite repeat_length. lia. }
    pose proof (valid_index_nth_lt ds idx m Hv ltac:(lia)) as Hlt.
    rewrite (Hdeg m) in Hlt by (done || lia). lia.
Qed.
End AxisPositions.

(** ** [reduce_dimensions] *)

Lemma firstn_app_exact {B} (l1 l2 : list B) : firstn (length l1) (l1 ++ l2) = l1.
Proof. induction l1; simpl; [done|]. by f_equal. Qed.

Lemma firstn_app_len {B} (l1 l2 : list B) n : length l1 = n -> firstn n (l1 ++ l2) = l1.
Proof. intros <-. apply firstn_app_exact. Qed.

Lemma valid_index_app ds1 ds2 i1 i2 :
  valid_index ds1 i1 -> valid_index ds2 i2 -> valid_index (ds1 ++ ds2) (i1 ++ i2).
Proof.
  revert i1; induction ds1 as [|d ds1 IH]; intros [|i i1] H1 H2; simpl in *; try tauto.
  split; [tauto|]. apply IH; tauto.
Qed.

Lemma valid_index_ones k : valid_index (repeat 1 k) (repeat 0 k).
Proof. induction k; simpl; [done|]. split; [lia|done]. Qed.

Lemma map_const_repeat {B C} (f : B -> C) c l :
  (forall a, In a l -> f a = c) -> map f l = repeat c (length l).
Proof.
  induction l as [|a l IH]; intros H; simpl; [done|].
  rewrite (H a) by (left; done). f_equal. apply IH. intros b Hb. apply H. right. done.
Qed.

Lemma existsb_false {B} (f : B -> bool) l :
  (forall a, In a l -> f a = false) -> existsb f l = false.
Proof.
  intros H. destruct (existsb f l) eqn:E; [|done].
  apply existsb_exists in E as (a & Ha & Hf). rewrite H in Hf; done.
Qed.

Section ReduceDimensions.
Context {A : Type} (na : A).

Lemma r_array_exact (data : list A) dims :
  length data = prod dims -> r_data (r_array na data dims) = data.
Proof.
  intros Hl. unfold r_array. simpl. destruct data as [|a data].
  - simpl in Hl. rewrite <- Hl. done.
  - rewrite <- Hl.
    rewrite <- (map_nth_seq (a :: data) na) at 2.
    apply map_ext_in. intros k Hk. apply in_seq in Hk.
    rewrite Nat.mod_small by lia. done.
Qed.

Lemma aperm_ok (x : rarray) perm :
  Permutation perm (seq 0 (length (r_dim x))) ->
  aperm na x perm =
    Ok (mk_rarray (map (fun p => nth p (r_dim x) 0) perm) None
          (map (fun k => nth (flat (r_dim x) (old_index perm (length (r_dim x))
                                (unflat (map (fun p => nth p (r_dim x) 0) perm) k)))
                             (r_data x) na)
               (seq 0 (prod (map (fun p => nth p (r_dim x) 0) perm))))).
Proof.
  intros Hp. unfold aperm.
  rewrite (Permutation_length Hp), length_seq, Nat.eqb_refl. simpl.
  rewrite bool_decide_eq_true_2.
  2:{ apply List.Forall_forall. intros p Hin. eapply Permutation_in in Hin; [|exact Hp].
      apply in_seq in Hin. lia. }
  rewrite bool_decide_eq_true_2; [done|].
  apply NoDup_ListNoDup. eapply Permutation_NoDup; [symmetry; exact Hp|]. apply seq_NoDup.
Qed.
(** [aperm] only succeeds on a permutation without repetition. *)
Lemma aperm_Ok_NoDup (x : rarray) perm y :
  aperm na x perm = Ok y -> List.NoDup perm.
Proof.
  unfold aperm. intros H.
  destruct (negb (Nat.eqb _ _)); [discriminate|].
  destruct (bool_decide (NoDup perm)) eqn:E.
  - apply bool_decide_eq_true in E. by apply NoDup_ListNoDup.
  - rewrite andb_false_r in H. simpl in H. discriminate.
Qed.

(** A successful [reduce_dimensions] had a target list without
    repetition: the positions [w] of the target names start the
    permutation given to [aperm]. *)
Lemma reduce_dimensions_Ok_NoDup (x : rarray) target y :
  reduce_dimensions na x (Some target) = Ok y -> List.NoDup target.
Proof.
  unfold reduce_dimensions. intros H.
  destruct (r_dim_names x) as [dn|]; [|discriminate].
  destruct (negb (Nat.eqb _ _)); [discriminate|].
  destruct target as [|t0 tr] eqn:Et; [discriminate|]. rewrite <- Et in H |- *.
  destruct (negb (Nat.eqb (length (r_setdiff target dn)) 0)); [discriminate|].
  destruct (existsb _ _); [discriminate|].
  destruct (all_found _) as [perm|] eqn:Ea; [|discriminate].
  destruct (aperm na x perm) as [xr|e] eqn:Ep; [|discriminate].
  apply aperm_Ok_NoDup, (List.NoDup_map_NoDup_ForallPairs Some) in Ep;
    [|intros a b _ _ Hab; congruence].
  apply all_found_Some in Ea. rewrite <- Ea in Ep.
  apply List.NoDup_app_remove_r, List.NoDup_map_inv in Ep. exact Ep.
Qed.

Lemma reduce_dimensions_empty_target (x : rarray) :
  exists e, reduce_dimensions na x (Some []) = Err e.
Proof.
  unfold reduce_dimensions.
  destruct (r_dim_names x) as [dn|]; [|eexists; reflexivity].
  destruct (negb (Nat.eqb _ _)); eexists; reflexivity.
Qed.
End ReduceDimensions.

(** C1 (amended).  For an array whose [dim_names] has one name per axis
    and no repeated name, and a non-empty target list without repetition
    whose names are all axes of the array, every other axis having extent
    1: [reduce_dimensions] succeeds; the result has exactly the extents of
    the target axes in target order (explicitly requested axes of extent
    1 included) and the target list as [dim_names]; and re-expanding it
    to the original shape, the dropped axes of extent 1 put back, gives
    the original cells.  For every array, an empty target list and a
    target list naming some axis twice make [reduce_dimensions] stop with
    an error. *)
Theorem reduce_dimensions_shape_roundtrip {A : Type} (na : A) (x : rarray) :
  (forall dn target,
    r_dim_names x = Some dn ->
    length dn = length (r_dim x) ->
    List.NoDup dn ->
    target <> [] ->
    List.NoDup target ->
    (forall t, In t target -> In t dn) ->
    (forall m, m < length dn -> ~ In (nth m dn "") target -> nth m (r_dim x) 0 = 1) ->
    length (r_data x) = prod (r_dim x) ->
    exists y, reduce_dimensions na x (Some target) = Ok y /\
      r_dim y = map (fun t => nth (default 0 (r_match t dn)) (r_dim x) 0) target /\
      r_dim_names y = Some target /\
      length (r_data y) = prod (r_dim y) /\
      reexpand na dn target (r_dim x) y = r_data x) /\
  (exists e, reduce_dimensions na x (Some []) = Err e) /\
  (forall target, ~ List.NoDup target ->
    exists e, reduce_dimensions na x (Some target) = Err e).
Proof.
  split; [|split].
  2:{ apply reduce_dimensions_empty_target. }
  2:{ intros target Hnd.
      destruct (reduce_dimensions na x (Some target)) as [y|e] eqn:E; [|eauto].
      exfalso. apply Hnd. exact (reduce_dimensions_Ok_NoDup na x target y E). }
  intros dn target.
  intros Hdn Hlen Hnd Hne Htnd Hin Hdeg Hdata.
  destruct x as [ds dno data]; simpl in *; subst dno.
  set (pos := fun t => default 0 (r_match t dn)).
  unfold reduce_dimensions; simpl.
  rewrite Hlen, Nat.eqb_refl. simpl.
  destruct target as [|t0 tr] eqn:Et; [congruence|].
  rewrite <- Et in Htnd, Hin, Hdeg |- *.
  set (dropped := List.filter (fun a => negb (r_in a target)) dn).
  rewrite r_setdiff_all_in by done. simpl.
  rewrite (r_setdiff_nodup dn target Hnd). fold dropped.
  rewrite existsb_false.
  2:{ intros a Ha. subst dropped. apply filter_In in Ha as [Ha Hna].
      apply negb_true_iff, r_in_false in Hna.
      destruct (pos_in dn a Ha) as (Hm & Hlt & Hn).
      rewrite Hm. simpl. rewrite (Hdeg (default 0 (r_match a dn))) by (rewrite ?Hn; done). done. }
  simpl. rewrite <- map_app.
  rewrite (all_found_map _ pos).
  2:{ intros t Ht. apply pos_in. apply in_app_or in Ht as [Ht|Ht]; [by apply Hin|].
      subst dropped. apply filter_In in Ht. tauto. }
  assert (Hp : Permutation (map pos (target ++ dropped)) (seq 0 (length ds)))
    by (rewrite <- Hlen; apply (perm_seq dn Hnd target Htnd Hin)).
  rewrite (aperm_ok na (mk_rarray ds (Some dn) data) _ Hp). simpl.
  set (sz := map (fun t => nth (pos t) ds 0) target).
  assert (Hsz : length sz = length target) by (unfold sz; rewrite length_map; done).
  assert (Hndims : map (fun p => nth p ds 0) (map pos (target ++ dropped))
                   = sz ++ repeat 1 (length dropped)).
  { rewrite map_map, map_app. f_equal. apply map_const_repeat.
    intros a Ha. subst dropped. apply filter_In in Ha as [Ha Hna].
    apply negb_true_iff, r_in_false in Hna.
    destruct (pos_in dn a Ha) as (_ & Hlt & Hn).
    apply (Hdeg (pos a)); [exact Hlt|]. unfold pos. rewrite Hn. done. }
  assert (Hnames : map (fun p => nth p dn "") (map pos (target ++ dropped))
                   = target ++ map (fun a => nth (pos a) dn "") dropped).
  { rewrite map_map, map_app. f_equal. rewrite <- (map_id target) at 2.
    apply map_ext_in. intros t Ht. apply pos_in, Hin, Ht. }
  rewrite Hndims, Hnames, length_map.
  rewrite (firstn_app_len sz _ _ Hsz), (firstn_app_len target _ _ eq_refl).
  set (apdata := map (fun k => nth (flat ds (old_index (map pos (target ++ dropped)) (length ds)
                        (unflat (sz ++ repeat 1 (length dropped)) k))) data na)
                     (seq 0 (prod (sz ++ repeat 1 (length dropped))))).
  assert (Hap : length apdata = prod sz)
    by (unfold apdata; rewrite length_map, length_seq, prod_app_ones; done).
  pose proof (r_array_exact na _ _ Hap) as Hy.
  assert (Hyd : r_dim (r_array na apdata sz) = sz) by done.
  set (yarr := r_array na apdata sz) in *. clearbody yarr.
  unfold set_dim_names. rewrite Hyd, Hsz, Nat.eqb_refl, (r_unique_nodup target Htnd), Nat.eqb_refl.
  simpl. eexists. split; [reflexivity|]. simpl.
  rewrite Hy. split; [done|]. split; [done|]. split; [done|].
  unfold reexpand. simpl.
  rewrite <- (map_nth_seq data na). rewrite Hdata.
  apply map_ext_in. intros k Hk. apply in_seq in Hk.
  set (idx := unflat ds k).
  assert (Hv : valid_index ds idx) by (apply unflat_valid; lia).
  set (j' := map (fun t => nth (pos t) idx 0) target).
  assert (Hvj : valid_index (sz ++ repeat 1 (length dropped)) (j' ++ repeat 0 (length dropped))).
  { apply valid_index_app; [|apply valid_index_ones].
    apply valid_index_nth; [unfold j'; rewrite length_map; done|].
    intros m Hm. rewrite Hsz in Hm. unfold j', sz.
    rewrite (nth_map_lt _ _ _ _ ""), (nth_map_lt _ _ _ _ "") by done.
    apply valid_index_nth_lt; [done|].
    rewrite <- Hlen. apply pos_in, Hin, nth_In. done. }
  unfold project. change (map (fun n => nth (default 0 (r_match n dn)) idx 0) target) with j'.
  rewrite <- (flat_app_ones sz j' (length dropped)) by (unfold j'; rewrite length_map; done).
  unfold apdata. rewrite nth_map_seq by (apply flat_lt; done).
  rewrite unflat_flat by done.
  assert (Hoi : old_index (map pos (target ++ dropped)) (length ds)
                  (j' ++ repeat 0 (length dropped)) = idx)
    by (apply (old_index_project dn Hnd target Htnd Hin ds idx Hlen Hv Hdeg)).
  rewrite Hoi.
  unfold idx. rewrite flat_unflat by lia. done.
Qed.

(** An axis of extent 1 named in the target list is kept: a [2 x 1 x 3]
    array reduced to [c, b, a] has extents [3, 1, 2]. *)
Example reduce_dimensions_keeps_requested_degenerate :
  reduce_dimensions 0%Z (mk_rarray [2; 1; 3] (Some ["a"; "b"; "c"]) [1; 2; 3; 4; 5; 6]%Z)
    (Some ["c"; "b"; "a"])
  = Ok (mk_rarray [3; 1; 2] (Some ["c"; "b"; "a"]) [1; 3; 5; 2; 4; 6]%Z).
Proof. reflexivity. Qed.

(** C1 (counterexample).  The claim fails at an empty target list (all
    axes of extent 1, so every condition of the claim holds), at a target
    list that names an axis twice, and at an array whose [dim_names]
    repeats a name (two axes of extent 1 both named "a", target "a"):
    [reduce_dimensions] stops in each case instead of returning an
    array. *)
Lemma reduce_dimensions_empty_or_repeated_target_fails :
  reduce_dimensions 0%Z (mk_rarray [1] (Some ["a"]) [7%Z]) (Some [])
    = Err "missing value where TRUE/FALSE needed" /\
  reduce_dimensions 0%Z (mk_rarray [2] (Some ["a"]) [7; 8]%Z) (Some ["a"; "a"])
    = Err "'perm' is of wrong length" /\
  reduce_dimensions 0%Z (mk_rarray [1; 1] (Some ["a"; "a"]) [7%Z]) (Some ["a"])
    = Err "'perm' is of wrong length".
Proof. split_and!; reflexivity. Qed.

(** ** [splice_named_var] *)

(** C5 (amended).  For a vector of 4 integers (lead_time, station,
    ens_member, time) and a non-empty list of names that are all
    canonical dimension names, the splicer returns the vector named by
    that list, in its order, each value taken at the position of its name
    in the default order.  When a requested name is not canonical it stops
    with "Invalid dimensions for a data variable: " followed by all the
    requested names joined by commas; when the vector does not have 4
    elements it stops with the generic assertion message
    "length(d) == 4 is not TRUE", which names no entry. *)
Theorem splice_named_var_spec (d : list Z) (ncdims : list string) :
  (length d = 4 -> ncdims <> [] ->
   (forall n, In n ncdims -> In n get_default_dim_order) ->
   splice_named_var d ncdims =
     Ok (map (fun n => (n, Some (nth (default 0 (r_match n get_default_dim_order)) d 0%Z)))
             ncdims)) /\
  (length d = 4 ->
   (exists n, In n ncdims /\ ~ In n get_default_dim_order) ->
   splice_named_var d ncdims =
     Err ("Invalid dimensions for a data variable: " ++ String.concat "," ncdims)%string) /\
  (length d <> 4 -> splice_named_var d ncdims = Err "length(d) == 4 is not TRUE").
Proof.
  split; [|split].
  - intros Hl Hne Hin. unfold splice_named_var. rewrite Hl.
    replace (forallb (fun n => r_in n get_default_dim_order) ncdims) with true.
    2:{ symmetry. apply forallb_forall. intros n Hn. apply r_in_spec, Hin, Hn. }
    assert (Nat.ltb 0 (length ncdims) = true) as ->
      by (destruct ncdims; [congruence|done]).
    change (Nat.eqb 4 4) with true. cbv beta iota zeta. f_equal. apply map_ext_in. intros n Hn. f_equal.
    destruct d as [|a [|b [|c [|e [|]]]]]; simpl in Hl; try lia.
    specialize (Hin n Hn). unfold get_default_dim_order in Hin.
    simpl in Hin. repeat (destruct Hin as [<-|Hin]; [reflexivity|]). done.
  - intros Hl (n & Hn & Hnot). unfold splice_named_var. rewrite Hl.
    replace (forallb (fun n => r_in n get_default_dim_order) ncdims) with false.
    2:{ symmetry. apply not_true_iff_false. intros Hall.
        apply Hnot, r_in_spec. eapply forallb_forall in Hall; [exact Hall|exact Hn]. }
    destruct ncdims as [|n0 ns] eqn:E; [done|]. done.
  - intros Hl. unfold splice_named_var.
    destruct (Nat.eqb_spec (length d) 4); [done|]. done.
Qed.

(** ** Python helpers *)

Lemma py_eq_false a b : a <> b -> py_eq a b = false.
Proof.
  intros H. unfold py_eq.
  destruct a, b; try reflexivity; by apply bool_decide_eq_false.
Qed.

Lemma py_eq_true i v : i <> PyNaN -> py_eq i v = true <-> v = i.
Proof.
  intros Hi. unfold py_eq.
  destruct i, v; rewrite ?bool_decide_eq_true; split; congruence.
Qed.

Lemma filter_nth_false (cond : list bool) l :
  Forall (fun b => b = false) cond ->
  List.filter (fun k => nth k cond false) l = [].
Proof.
  intros Hc. assert (Hn : forall k, nth k cond false = false).
  { induction Hc as [|b cond Hb Hc IH]; intros [|k]; simpl; auto. }
  induction l as [|k l IH]; simpl; [done|]. by rewrite Hn.
Qed.

Lemma _first_where_nd_all_false (cond : ndarray bool) :
  Forall (fun b => b = false) (nd_cells cond) ->
  _first_where_nd cond = raise (ValueError "first_where: Invalid condition, no element is true").
Proof. intros Hc. unfold _first_where_nd, np_where0. by rewrite filter_nth_false. Qed.

Lemma py_eq_not_in i vals :
  ~ In i vals -> Forall (fun b => b = false) (map (py_eq i) vals).
Proof.
  intros Hi. apply List.Forall_forall. intros b Hb.
  apply in_map_iff in Hb as (v & <- & Hv). apply py_eq_false. intros ->. done.
Qed.

Lemma _has_all_members_spec (tested : gset string) reference :
  _has_all_members tested reference = true <-> (forall a, In a reference -> a ∈ tested).
Proof.
  unfold _has_all_members. rewrite bool_decide_eq_true. split.
  - intros H a Ha.
    assert (a ∈ (list_to_set reference : gset string)) as Hr
      by (apply elem_of_list_to_set, list_elem_of_In, Ha).
    rewrite <- H in Hr. set_solver.
  - intros H. apply set_eq. intros a. rewrite elem_of_intersection, elem_of_list_to_set.
    split; [tauto|]. intros Ha. split; [|done]. apply H, list_elem_of_In, Ha.
Qed.

Lemma _has_required_dimensions_spec d mandatory :
  _has_required_dimensions d mandatory = true <->
  (forall n, n ∈ dom (ds_dims d) <-> In n mandatory).
Proof.
  unfold _has_required_dimensions. rewrite bool_decide_eq_true, set_eq.
  setoid_rewrite elem_of_list_to_set. setoid_rewrite list_elem_of_In. done.
Qed.

(** ** Maps built by successive [update]s *)

Lemma dict_update_app {V} (m : gmap string V) l1 l2 :
  dict_update m (l1 ++ l2) = dict_update (dict_update m l1) l2.
Proof. unfold dict_update. by rewrite foldl_app. Qed.



(** ** Partitions by dimensionality code *)




Lemma unknown_dims_nil l :
  Forall (fun x => In (vd_dim_type x) ["2"; "3"; "4"]) l ->
  List.filter (fun x => negb (py_in (vd_dim_type x) ["2"; "3"; "4"])) l = [].
Proof.
  induction 1 as [|x l Hx Hl IH]; [done|]. cbn [List.filter]. rewrite IH.
  by destruct Hx as [E|[E|[E|[]]]]; rewrite <- E.
Qed.

(** The allocation of a data variable on given dimensions. *)
Definition allocated (x : VarDef) (dims : list nc_dim) : string * xvar :=
  let shape := map (fun d => length (nd_values d)) dims in
  (vd_name x, mk_xvar (map nd_name dims) shape (repeat PyNone (prod shape))).

Lemma allocate_ok defs dims :
  dims <> [] -> allocate defs dims = Ok (map (fun x => allocated x dims) defs).
Proof.
  intros Hd. unfold allocate. induction defs as [|x defs IH]; simpl; [done|].
  rewrite IH. destruct dims; [done|]. reflexivity.
Qed.

Lemma create_efts_variables_ok data_var_def tdi num_stations lead_length ensemble_length
    optional_vars lead_time_tstep :
  Forall (fun x => In (vd_dim_type x) ["2"; "3"; "4"]) (map snd data_var_def) ->
  let dims := _create_nc_dims tdi num_stations lead_length ensemble_length in
  let values := map snd data_var_def in
  create_efts_variables data_var_def tdi num_stations lead_length ensemble_length
    optional_vars lead_time_tstep =
  Ok (mk_efts_variables
        (match optional_vars with
         | None => Some (create_mandatory_vardefs (station_dim_ dims) (str_dim_ dims)
                           (ensemble_dim_ dims) (lead_time_dim_ dims) lead_time_tstep)
         | Some _ => None
         end)
        (dict_update ∅
           (map (fun x => allocated x [lead_time_dim_ dims; station_dim_ dims;
                                       ensemble_dim_ dims; time_dim_ dims])
                (with_dim_type "4" values) ++
            map (fun x => allocated x [station_dim_ dims; ensemble_dim_ dims; time_dim_ dims])
                (with_dim_type "3" values) ++
            map (fun x => allocated x [station_dim_ dims; time_dim_ dims])
                (with_dim_type "2" values)))).
Proof.
  intros Hc dims values. unfold create_efts_variables. cbv zeta.
  rewrite (unknown_dims_nil _ Hc). cbn [length Nat.ltb Nat.leb].
  rewrite !allocate_ok by discriminate. cbn [mbind outcome_bind mret outcome_ret].
  rewrite !dict_update_app. reflexivity.
Qed.




Lemma py_in_spec x l : py_in x l = true <-> In x l.
Proof.
  unfold py_in. rewrite existsb_exists. split.
  - intros (y & Hy & E). apply String.eqb_eq in E. by subst.
  - intros H. exists x. split; [done|]. apply String.eqb_refl.
Qed.

(** ** The wrapper's [create_data_variables] *)



















(** ** Dispatch of data variables by dimensionality code *)


(** ** Rejection of unknown dimensionality codes *)

(** C3 (code bug).  When some definition has a code outside "2", "3",
    "4", [create_efts_variables] raises the [TypeError] of [str + int]
    while building its message, not an invalid-dimension [ValueError]. *)
Theorem create_efts_variables_unknown_code_type_error data_var_def tdi num_stations
    lead_length ensemble_length optional_vars lead_time_tstep :
  (exists x, In x (map snd data_var_def) /\ ~ In (vd_dim_type x) ["2"; "3"; "4"]) ->
  create_efts_variables data_var_def tdi num_stations lead_length ensemble_length
    optional_vars lead_time_tstep = raise (TypeError "can only concatenate str to str").
Proof.
  intros (x & Hx & Hc). unfold create_efts_variables. cbv zeta.
  assert (Hlt : Nat.ltb 0 (length (List.filter
             (fun x => negb (py_in (vd_dim_type x) ["2"; "3"; "4"])) (map snd data_var_def)))
                = true).
  { apply Nat.ltb_lt. destruct (List.filter _ _) eqn:E; simpl; [|lia].
    assert (In x (List.filter (fun x => negb (py_in (vd_dim_type x) ["2"; "3"; "4"]))
                    (map snd data_var_def))) as Hin.
    { apply filter_In. split; [done|]. apply negb_true_iff, not_true_iff_false.
      intros Hp. apply Hc. unfold py_in in Hp. apply existsb_exists in Hp as (c & Hc' & Hec).
      apply String.eqb_eq in Hec. by subst. }
    by rewrite E in Hin. }
  rewrite Hlt. reflexivity.
Qed.

(** ** The metadata variables *)

(** C4 (code bug).  For definitions with valid codes, [create_efts_variables]
    succeeds; without optional variables [metadatavars] maps exactly the six
    mandatory variables, but with optional variables it is [None] (the
    value of [dict.update]). *)
Theorem create_efts_variables_metadatavars data_var_def tdi num_stations lead_length
    ensemble_length optional_vars lead_time_tstep :
  Forall (fun x => In (vd_dim_type x) ["2"; "3"; "4"]) (map snd data_var_def) ->
  (optional_vars = None ->
   exists r m, create_efts_variables data_var_def tdi num_stations lead_length ensemble_length
                 optional_vars lead_time_tstep = Ok r /\
               metadatavars r = Some m /\
               dom m = list_to_set ["station_ids_var"; "station_names_var"; "ensemble_var";
                                    "lead_time_var"; "latitude_var"; "longitude_var"]) /\
  (optional_vars <> None ->
   exists r, create_efts_variables data_var_def tdi num_stations lead_length ensemble_length
               optional_vars lead_time_tstep = Ok r /\
             metadatavars r = None).
Proof.
  intros Hc. rewrite (create_efts_variables_ok _ _ _ _ _ _ _ Hc). cbv zeta. split.
  - intros ->. eexists _, _. split; [reflexivity|]. split; [reflexivity|].
    unfold create_mandatory_vardefs. rewrite dom_list_to_map_L. reflexivity.
  - intros Hov. destruct optional_vars as [ov|]; [|done].
    eexists. split; [reflexivity|]. reflexivity.
Qed.

(** ** Validation predicates *)

(** C6: the global-attribute predicate holds exactly when every one of the
    eight mandatory attribute names is an attribute of the data set, the
    variable predicate exactly when every one of the eight mandatory
    variable names is a variable, and each dimension predicate exactly when
    the data set's dimension names are the mandatory dimension names. *)
Theorem validation_predicates_spec (d : xdataset) :
  (has_required_global_attributes d = true <->
   (forall a, In a mandatory_global_attributes -> a ∈ dom (ds_attrs d))) /\
  (has_required_variables d = true <->
   (forall v, In v mandatory_varnames -> v ∈ dom (ds_variables d))) /\
  (has_required_stf2_dimensions d = true <->
   (forall n, n ∈ dom (ds_dims d) <-> In n mandatory_netcdf_dimensions)) /\
  (has_required_xarray_dimensions d = true <->
   (forall n, n ∈ dom (ds_dims d) <-> In n mandatory_xarray_dimensions)) /\
  length mandatory_global_attributes = 8 /\ List.NoDup mandatory_global_attributes /\
  length mandatory_varnames = 8 /\ List.NoDup mandatory_varnames.
Proof.
  split; [apply _has_all_members_spec|].
  split; [apply _has_all_members_spec|].
  split; [apply _has_required_dimensions_spec|].
  split; [apply _has_required_dimensions_spec|].
  repeat split; try reflexivity;
    repeat (apply List.NoDup_cons; [simpl; intuition discriminate|]); apply List.NoDup_nil.
Qed.

(** ** Index lookups *)

(** C7 (code bug).  An identifier absent from the values of the looked-up
    variable makes [index_for_identifier] raise the fixed [ValueError]
    "first_where: Invalid condition, no element is true", which names
    neither the identifier nor the dimension; the same holds for
    [index_for_time] with a time absent from the time axis.  A [None]
    identifier raises "Identifier cannot be NA". *)
Theorem index_lookup_not_found (self : EftsDataSet) (identifier dateTime : pyval)
    (dimension_id : option string) (values : ndarray pyval) (tv : xvar) :
  (_get_values self (default (get_stations_varname self) dimension_id) = Ok values ->
   ~ In identifier (nd_cells values) ->
   index_for_identifier self (Some identifier) dimension_id =
     raise (ValueError "first_where: Invalid condition, no element is true")) /\
  (_get_values self (default (get_stations_varname self) dimension_id) = Ok values ->
   index_for_identifier self None dimension_id = raise (Exception "Identifier cannot be NA")) /\
  (ds_variables (data self) !! TIME_DIMNAME = Some tv ->
   ~ In dateTime (xv_values tv) ->
   index_for_time self dateTime =
     raise (ValueError "first_where: Invalid condition, no element is true")).
Proof.
  split; [|split].
  - intros Hv Hi. unfold index_for_identifier. cbv zeta. rewrite Hv.
    apply _first_where_nd_all_false, py_eq_not_in, Hi.
  - intros Hv. unfold index_for_identifier. cbv zeta. by rewrite Hv.
  - intros Ht Hi. unfold index_for_time. rewrite Ht.
    apply _first_where_nd_all_false, py_eq_not_in, Hi.
Qed.

(** ** Creation at an existing path *)

(** C8 (amended).  At a path that exists, [create_efts] fails and leaves
    the file system as it was.  When station identifiers and global
    attributes are both given, the failure is the [FileExistsError]
    "File already exists: " followed by the path; when the station
    identifiers are [None], it is the [ValueError] about them; when they
    are given and [nc_attributes] is [None], it is the [ValueError] about
    [nc_attributes]. *)
Theorem create_efts_existing_path fs fname tdi data_var_definitions stations_ids
    station_names nc_attributes optional_vars lead_length ensemble_length lead_time_tstep :
  is_Some (fs !! fname) ->
  exists e,
    create_efts fs fname tdi data_var_definitions stations_ids station_names nc_attributes
      optional_vars lead_length ensemble_length lead_time_tstep = (Err e, fs) /\
    (stations_ids <> None -> nc_attributes <> None ->
     e = FileExistsError ("File already exists: " ++ fname)) /\
    (stations_ids = None ->
     e = ValueError
           "You must provide station identifiers when creating a new EFTS netCDF data set") /\
    (stations_ids <> None -> nc_attributes = None ->
     e = ValueError ("You must provide a suitable list for nc_attributes, including" ++
                     String.concat ", " mandatory_global_attributes)).
Proof.
  intros Hf. unfold create_efts.
  destruct stations_ids as [ids|];
    [|eexists; split; [reflexivity|split_and!; done]].
  destruct nc_attributes as [a|];
    [|eexists; split; [reflexivity|split_and!; done]].
  rewrite bool_decide_eq_true_2 by exact Hf.
  eexists. split; [reflexivity|]. split_and!; done.
Qed.

(** ** The test data set *)

(** C9: [xr_efts] on 31 issue times, 2 stations, 3 lead times and an
    ensemble of 10 (whatever the times, identifiers and lead times are)
    builds a data set with dimensions time 31, station 2, lead_time 3 and
    ens_member 10 that passes the dimension, global-attribute and variable
    predicates. *)
Theorem xr_efts_test_create_new_efts (issue_times : list pyval) (station_ids : list string)
    (lead_times : list pyval) :
  length issue_times = 31 -> length station_ids = 2 -> length lead_times = 3 ->
  exists d,
    xr_efts issue_times station_ids (Some lead_times) "hours" 10 None None None None None
      = Ok d /\
    ds_dims d !! TIME_DIMNAME = Some 31 /\ ds_dims d !! STATION_DIMNAME = Some 2 /\
    ds_dims d !! LEAD_TIME_DIMNAME = Some 3 /\ ds_dims d !! ENS_MEMBER_DIMNAME = Some 10 /\
    has_required_xarray_dimensions d = true /\
    has_required_global_attributes d = true /\
    has_required_variables d = true.
Proof.
  intros H1 H2 H3.
  do 31 (destruct issue_times as [|? issue_times]; [discriminate|]).
  destruct issue_times; [|discriminate].
  do 2 (destruct station_ids as [|? station_ids]; [discriminate|]).
  destruct station_ids; [|discriminate].
  do 3 (destruct lead_times as [|? lead_times]; [discriminate|]).
  destruct lead_times; [|discriminate].
  match goal with |- exists d, ?e = Ok d /\ _ => destruct e as [d|err] eqn:E end.
  - vm_compute in E. injection E as <-. eexists. split; [reflexivity|].
    vm_compute. repeat split.
  - vm_compute in E. discriminate.
Qed.

(** ** Station count *)

(** C10 (amended).  [get_station_count] returns [None] whenever the data
    set has the station dimension, whatever its size, and raises [KeyError]
    when it has none. *)
Theorem get_station_count_spec (self : EftsDataSet) :
  (is_Some (ds_dims (data self) !! e_STATION_DIMNAME self) ->
   get_station_count self = Ok PyNone) /\
  (ds_dims (data self) !! e_STATION_DIMNAME self = None ->
   get_station_count self = raise (KeyError (e_STATION_DIMNAME self))).
Proof.
  unfold get_station_count. split.
  - by intros [s ->].
  - by intros ->.
Qed.

(* ================================================================= *)
(** * Witnesses and counterexamples *)

(** Membership of a concrete element in a concrete list. *)
Ltac in_list := simpl; repeat ((left; reflexivity) || right).

(** Every definition of a concrete list has a known code. *)
Ltac known_codes := repeat (constructor; [in_list|]); constructor.

(** C1: the roundtrip theorem on a 2 x 1 x 3 array reduced to its axes
    "c" and "a", dropping the size-1 axis "b". *)
Lemma reduce_dimensions_shape_roundtrip_witness :
  exists y,
    reduce_dimensions 0%Z (mk_rarray [2; 1; 3] (Some ["a"; "b"; "c"]) [1; 2; 3; 4; 5; 6]%Z)
      (Some ["c"; "a"]) = Ok y /\
    r_dim y = [3; 2] /\
    reexpand 0%Z ["a"; "b"; "c"] ["c"; "a"] [2; 1; 3] y = [1; 2; 3; 4; 5; 6]%Z.
Proof.
  edestruct (proj1 (reduce_dimensions_shape_roundtrip 0%Z
    (mk_rarray [2; 1; 3] (Some ["a"; "b"; "c"]) [1; 2; 3; 4; 5; 6]%Z))
    ["a"; "b"; "c"] ["c"; "a"]) as (y & Hy & Hd & _ & _ & Hr).
  - reflexivity.
  - reflexivity.
  - repeat (apply List.NoDup_cons; [simpl; intuition discriminate|]); apply List.NoDup_nil.
  - discriminate.
  - repeat (apply List.NoDup_cons; [simpl; intuition discriminate|]); apply List.NoDup_nil.
  - intros t Ht. simpl in *. intuition.
  - intros m Hm Hn. destruct m as [|[|[|m]]]; simpl in *.
    + exfalso. apply Hn. auto.
    + reflexivity.
    + exfalso. apply Hn. auto.
    + lia.
  - reflexivity.
  - exists y. split; [exact Hy|]. split; [exact Hd|exact Hr].
Defined.



(** C3: one definition with the code "5". *)
Lemma create_efts_variables_unknown_code_type_error_witness :
  create_efts_variables
    [("rain_obs", create_variable_definition "rain_obs" "" "mm" (PyInt (-9999)) "double" "5" [])]
    test_time_dim_info 2 3 10 None "hours"
  = raise (TypeError "can only concatenate str to str").
Proof.
  apply create_efts_variables_unknown_code_type_error.
  eexists. split; [left; reflexivity|]. simpl. intuition discriminate.
Defined.

(** C4: one definition, with and without optional variables. *)
Lemma create_efts_variables_metadatavars_witness :
  exists r, create_efts_variables
    [("rain_obs", create_variable_definition "rain_obs" "" "mm" (PyInt (-9999)) "double" "2" [])]
    test_time_dim_info 2 3 10 (Some [mk_OptRow "area" "km^2" (PyInt (-9999)) "station area" "float"])
    "hours" = Ok r /\ metadatavars r = None.
Proof.
  apply (create_efts_variables_metadatavars
    [("rain_obs", create_variable_definition "rain_obs" "" "mm" (PyInt (-9999)) "double" "2" [])]
    test_time_dim_info 2 3 10 (Some [mk_OptRow "area" "km^2" (PyInt (-9999)) "station area" "float"])
    "hours").
  - known_codes.
  - discriminate.
Defined.

(** C5: one input for each of the three cases. *)
Lemma splice_named_var_spec_witness :
  splice_named_var [48; 2; 50; 31]%Z ["time"; "station"] =
    Ok [("time", Some 31%Z); ("station", Some 2%Z)] /\
  splice_named_var [48; 2; 50; 31]%Z ["time"; "foo"] =
    Err "Invalid dimensions for a data variable: time,foo" /\
  splice_named_var [48; 2; 50]%Z ["time"] = Err "length(d) == 4 is not TRUE".
Proof.
  destruct (splice_named_var_spec [48; 2; 50; 31]%Z ["time"; "station"]) as [H1 _].
  destruct (splice_named_var_spec [48; 2; 50; 31]%Z ["time"; "foo"]) as [_ [H2 _]].
  destruct (splice_named_var_spec [48; 2; 50]%Z ["time"]) as [_ [_ H3]].
  split; [|split].
  - rewrite H1; [reflexivity|reflexivity|discriminate|].
    intros n Hn. simpl in *. intuition (subst; auto).
  - apply H2; [reflexivity|]. exists "foo". simpl. intuition discriminate.
  - apply H3. discriminate.
Defined.

(** C5 (counterexample).  A vector of 3 elements stops with the generic
    assertion message, and a list with one non-canonical name stops with a
    message listing every requested name, "time" included. *)
Lemma splice_named_var_messages :
  splice_named_var [48; 2; 50]%Z ["time"] = Err "length(d) == 4 is not TRUE" /\
  splice_named_var [48; 2; 50; 31]%Z ["time"; "foo"] =
    Err "Invalid dimensions for a data variable: time,foo".
Proof. split; reflexivity. Qed.

(** C7: the test data set, identifier "c". *)
Lemma index_lookup_not_found_witness :
  index_for_identifier (EftsDataSet_of_dataset test_dataset) (Some (PyStr "c")) None =
    raise (ValueError "first_where: Invalid condition, no element is true").
Proof.
  apply (proj1 (index_lookup_not_found (EftsDataSet_of_dataset test_dataset) (PyStr "c")
                  (PyInt 0) None (mk_ndarray [2] [PyStr "a"; PyStr "b"]) (mk_xvar [] [] []))).
  - vm_compute. reflexivity.
  - simpl. intuition discriminate.
Defined.

(** C8: an existing file, every argument given. *)
Lemma create_efts_existing_path_witness :
  exists e,
    create_efts {[ "forecast.nc" := "existing contents" ]} "forecast.nc" test_time_dim_info
      (DefsDict []) (Some [1; 2]%Z) None (Some stf2_default_attributes) None 48 50 "hours"
    = (Err e, {[ "forecast.nc" := "existing contents" ]}) /\
    e = FileExistsError "File already exists: forecast.nc".
Proof.
  destruct (create_efts_existing_path {[ "forecast.nc" := "existing contents" ]} "forecast.nc"
    test_time_dim_info (DefsDict []) (Some [1; 2]%Z) None (Some stf2_default_attributes) None
    48 50 "hours") as (e & He & Hm & _ & _).
  - exists "existing contents". reflexivity.
  - exists e. split; [exact He|]. apply Hm; discriminate.
Defined.

(** C8 (counterexample).  At an existing path, a call that leaves
    [nc_attributes] at its default [None] fails with a [ValueError], not
    with a file-exists error. *)
Lemma create_efts_existing_path_default_attributes :
  create_efts {[ "forecast.nc" := "existing contents" ]} "forecast.nc" test_time_dim_info
    (DefsDict []) (Some [1; 2]%Z) None None None 48 50 "hours"
  = (raise (ValueError ("You must provide a suitable list for nc_attributes, including" ++
                        String.concat ", " mandatory_global_attributes)),
     {[ "forecast.nc" := "existing contents" ]}).
Proof. reflexivity. Qed.

(** C9: the inputs of the test. *)
Lemma xr_efts_test_create_new_efts_witness :
  exists d, test_xr_efts = Ok d /\
    ds_dims d !! TIME_DIMNAME = Some 31 /\ ds_dims d !! STATION_DIMNAME = Some 2 /\
    ds_dims d !! LEAD_TIME_DIMNAME = Some 3 /\ ds_dims d !! ENS_MEMBER_DIMNAME = Some 10 /\
    has_required_xarray_dimensions d = true /\
    has_required_global_attributes d = true /\
    has_required_variables d = true.
Proof.
  apply xr_efts_test_create_new_efts; reflexivity.
Defined.

(** C10 (counterexample).  A data set without the station dimension:
    [get_station_count] raises [KeyError]. *)
Lemma get_station_count_no_station_dimension :
  get_station_count (EftsDataSet_of_dataset (mk_xdataset ∅ ∅ [] ∅)) = raise (KeyError "station").
Proof. reflexivity. Qed.

(* ================================================================= *)
(** * Further properties of the code *)
(* ================================================================= *)

(** ** Helpers *)

Lemma filter_seq_head (cond : list bool) a n k :
  head (List.filter (fun j => nth j cond false) (seq a n)) = Some k <->
  a <= k < a + n /\ nth k cond false = true /\
  (forall j, a <= j < k -> nth j cond false = false).
Proof.
  revert a. induction n as [|n IH]; intros a; simpl.
  - split; [discriminate|lia].
  - destruct (nth a cond false) eqn:Ha; simpl.
    + split.
      * intros [= <-]. split; [lia|]. split; [done|]. lia.
      * intros (Hk & Hkt & Hj). f_equal.
        destruct (Nat.eq_dec a k) as [|Hne]; [done|].
        rewrite Hj in Ha; [discriminate|lia].
    + rewrite IH. split.
      * intros (Hk & Hkt & Hj). split; [lia|]. split; [done|].
        intros j Hj'. destruct (Nat.eq_dec j a) as [->|]; [done|]. apply Hj. lia.
      * intros (Hk & Hkt & Hj). destruct (Nat.eq_dec a k) as [->|Hne].
        { congruence. }
        split; [lia|]. split; [done|]. intros j Hj'. apply Hj. lia.
Qed.

(** On a one-dimensional condition, the first-axis index is the
    position itself. *)
Lemma _first_where_eq (condition : list bool) :
  _first_where condition =
    let x := List.filter (fun k => nth k condition false) (seq 0 (length condition)) in
    if Nat.ltb (length x) 1
    then raise (ValueError "first_where: Invalid condition, no element is true")
    else Ok (nth 0 x 0).
Proof.
  unfold _first_where, _first_where_nd, np_where0. cbn [nd_cells nd_shape tl prod fold_right].
  rewrite length_map.
  destruct (List.filter _ _) as [|y l]; [done|]. cbn [map nth]. by rewrite Nat.div_1_r.
Qed.

(** [_first_where] on an array: the first-axis index of the first true
    cell. *)
Lemma _first_where_nd_eq (shape : list nat) (condition : list bool) :
  _first_where_nd (mk_ndarray shape condition) =
    (p ← _first_where condition; Ok (p / prod (tl shape))).
Proof.
  rewrite _first_where_eq. unfold _first_where_nd, np_where0. cbn [nd_cells nd_shape].
  rewrite length_map.
  destruct (List.filter _ _) as [|y l]; reflexivity.
Qed.

Lemma _first_where_ok (condition : list bool) k :
  _first_where condition = Ok k <->
  nth k condition false = true /\ (forall j, j < k -> nth j condition false = false).
Proof.
  assert (E : _first_where condition = Ok k <->
              head (List.filter (fun j => nth j condition false)
                                (seq 0 (length condition))) = Some k).
  { rewrite _first_where_eq.
    destruct (List.filter (fun j => nth j condition false) (seq 0 (length condition)))
      as [|y l]; simpl; unfold raise; split; congruence. }
  rewrite E, filter_seq_head. split.
  - intros (_ & Hk & Hj). split; [done|]. intros j Hj'. apply Hj. lia.
  - intros (Hk & Hj). split; [|split; [done|]].
    + split; [lia|]. simpl. destruct (decide (k < length condition)); [done|].
      rewrite nth_overflow in Hk by lia. discriminate.
    + intros j Hj'. apply Hj. lia.
Qed.

Lemma nth_map_py_eq i (l : list pyval) k :
  i <> PyNaN ->
  nth k (map (py_eq i) l) false = true <-> nth_error l k = Some i.
Proof.
  intros Hi. revert k. induction l as [|v l IH]; intros [|k]; simpl.
  - split; discriminate.
  - split; discriminate.
  - rewrite py_eq_true by done. split; congruence.
  - apply IH.
Qed.

Lemma _first_where_py_eq i (vals : list pyval) k :
  i <> PyNaN ->
  _first_where (map (py_eq i) vals) = Ok k <->
  nth_error vals k = Some i /\ (forall j, j < k -> nth_error vals j <> Some i).
Proof.
  intros Hi. rewrite _first_where_ok, nth_map_py_eq by done. split.
  - intros [Hk Hj]. split; [done|]. intros j Hj' E.
    apply (nth_map_py_eq i) in E; [|done]. rewrite Hj in E by done. discriminate.
  - intros [Hk Hj]. split; [done|]. intros j Hj'.
    destruct (nth j (map (py_eq i) vals) false) eqn:E; [|done].
    apply (nth_map_py_eq i) in E; [|done]. exfalso. by apply (Hj j).
Qed.

(** Looking a value up in a variable: the first-axis index of the first
    cell, in row-major order, holding it. *)
Lemma _first_where_nd_py_eq i (v : xvar) k :
  i <> PyNaN ->
  _first_where_nd (nd_eq (values_of v) i) = Ok k <->
  exists p, nth_error (xv_values v) p = Some i /\
    (forall j, j < p -> nth_error (xv_values v) j <> Some i) /\
    k = p / prod (tl (xv_shape v)).
Proof.
  intros Hi. unfold nd_eq, values_of. cbn [nd_shape nd_cells]. rewrite _first_where_nd_eq.
  destruct (_first_where (map (py_eq i) (xv_values v))) as [p|e] eqn:E;
    cbn [mbind outcome_bind].
  - apply (_first_where_py_eq i _ p Hi) in E as [Hp Hj]. split.
    + intros Hk. injection Hk as <-. eauto.
    + intros (p' & Hp' & Hj' & ->).
      destruct (Nat.lt_trichotomy p p') as [Hlt|[->|Hlt]].
      * exfalso. by apply (Hj' p).
      * done.
      * exfalso. by apply (Hj p').
  - split; [discriminate|]. intros (p & Hp & Hj & _).
    assert (_first_where (map (py_eq i) (xv_values v)) = Ok p)
      by (apply _first_where_py_eq; auto).
    congruence.
Qed.

(** Nothing is equal to [NaN]: looking it up always fails. *)
Lemma _first_where_nd_nan (v : xvar) :
  _first_where_nd (nd_eq (values_of v) PyNaN) =
    raise (ValueError "first_where: Invalid condition, no element is true").
Proof.
  apply _first_where_nd_all_false. apply List.Forall_forall. intros b Hb.
  apply in_map_iff in Hb as (w & <- & _). reflexivity.
Qed.

(** ** [_first_where], [index_for_identifier] and [index_for_time] *)

(** [_first_where] returns the first position where the condition holds,
    and raises its [ValueError] exactly when it holds nowhere. *)
Theorem _first_where_first_true (condition : list bool) :
  (forall k, _first_where condition = Ok k <->
     nth k condition false = true /\ (forall j, j < k -> nth j condition false = false)) /\
  (_first_where condition =
     raise (ValueError "first_where: Invalid condition, no element is true") <->
   ~ In true condition).
Proof.
  split; [intros k; apply _first_where_ok|].
  rewrite _first_where_eq. split.
  - intros E Hin. apply In_nth with (d := false) in Hin as (k & Hk & Hnth).
    destruct (List.filter (fun j => nth j condition false) (seq 0 (length condition)))
      as [|y l] eqn:Hf; [|discriminate].
    assert (In k (List.filter (fun j => nth j condition false) (seq 0 (length condition))))
      as Hk'.
    { apply filter_In. split; [apply in_seq; lia|done]. }
    rewrite Hf in Hk'. done.
  - intros Hnin. rewrite filter_nth_false; [done|].
    apply List.Forall_forall. intros b Hb. destruct b; [done|reflexivity].
Qed.

(** [index_for_identifier] with a conventional dimension variable that
    exists and an identifier other than [NaN] returns the index along
    the first axis of the first cell, in row-major order, holding the
    identifier; for a one-dimensional variable, the first position
    holding it.  A [NaN] identifier is found nowhere. *)
Theorem index_for_identifier_first_match (self : EftsDataSet) (i : pyval)
    (dimension_id : string) (v : xvar) (k : nat) :
  In dimension_id conventional_varnames ->
  ds_variables (data self) !! dimension_id = Some v ->
  (i <> PyNaN ->
   (index_for_identifier self (Some i) (Some dimension_id) = Ok k <->
    exists p, nth_error (xv_values v) p = Some i /\
      (forall j, j < p -> nth_error (xv_values v) j <> Some i) /\
      k = p / prod (tl (xv_shape v))) /\
   (length (xv_shape v) = 1 ->
    index_for_identifier self (Some i) (Some dimension_id) = Ok k <->
    nth_error (xv_values v) k = Some i /\
    (forall j, j < k -> nth_error (xv_values v) j <> Some i))) /\
  index_for_identifier self (Some PyNaN) (Some dimension_id) =
    raise (ValueError "first_where: Invalid condition, no element is true").
Proof.
  intros Hc Hv. unfold index_for_identifier. cbn [default from_option id]. unfold _get_values.
  apply py_in_spec in Hc. rewrite Hc, Hv. cbn [negb mbind outcome_bind].
  split; [|apply _first_where_nd_nan].
  intros Hi. rewrite (_first_where_nd_py_eq i v k Hi). split; [done|].
  intros Hs. destruct (xv_shape v) as [|n [|]]; simpl in Hs; try lia.
  cbn [tl prod fold_right]. split.
  - intros (p & Hp & Hj & ->). by rewrite Nat.div_1_r.
  - intros [Hk Hj]. exists k. by rewrite Nat.div_1_r.
Qed.

(** [index_for_time] with a date-time other than [NaT] returns the first
    position of the time axis holding it; a [NaT] is found nowhere.  The
    time variable, named as its dimension, is one-dimensional. *)
Theorem index_for_time_first_match (self : EftsDataSet) (dateTime : pyval) (v : xvar) (k : nat) :
  ds_variables (data self) !! TIME_DIMNAME = Some v ->
  length (xv_shape v) = 1 ->
  (dateTime <> PyNaN ->
   index_for_time self dateTime = Ok k <->
   nth_error (xv_values v) k = Some dateTime /\
   (forall j, j < k -> nth_error (xv_values v) j <> Some dateTime)) /\
  index_for_time self PyNaN =
    raise (ValueError "first_where: Invalid condition, no element is true").
Proof.
  intros Hv Hs. unfold index_for_time. rewrite Hv.
  split; [|apply _first_where_nd_nan].
  intros Hi. rewrite (_first_where_nd_py_eq dateTime v k Hi).
  destruct (xv_shape v) as [|n [|]]; simpl in Hs; try lia.
  cbn [tl prod fold_right]. split.
  - intros (p & Hp & Hj & ->). by rewrite Nat.div_1_r.
  - intros [Hk Hj]. exists k. by rewrite Nat.div_1_r.
Qed.

(** [index_for_identifier] checks the dimension name before anything
    else: a name outside [conventional_varnames] raises [ValueError],
    whatever the identifier (also [None]) and the data set. *)
Theorem index_for_identifier_unconventional_dimension (self : EftsDataSet)
    (identifier : option pyval) (dimension_id : string) :
  ~ In dimension_id conventional_varnames ->
  index_for_identifier self identifier (Some dimension_id) =
    raise (ValueError (dimension_id ++ " cannot be directly retrieved. Must be in " ++
                       String.concat ", " conventional_varnames)).
Proof.
  intros Hc. unfold index_for_identifier. cbn [default from_option id]. unfold _get_values.
  destruct (py_in dimension_id conventional_varnames) eqn:E; [|reflexivity].
  apply py_in_spec in E. done.
Qed.

(** ** Global attributes *)

(** [create_global_attributes] refuses an empty title only when strict;
    otherwise it returns the five keys title, institution, source,
    catchment and comment, so a data set with these attributes never
    passes [has_required_global_attributes]. *)
Theorem create_global_attributes_spec (title institution source catchment comment : string)
    (strict : bool) :
  (strict = true -> title = "" ->
   create_global_attributes title institution source catchment comment strict =
     raise (ValueError "Empty title is not accepted as a valid attribute")) /\
  (strict = false \/ title <> "" ->
   exists attrs,
     create_global_attributes title institution source catchment comment strict = Ok attrs /\
     dom attrs = list_to_set [TITLE_ATTR_KEY; INSTITUTION_ATTR_KEY; SOURCE_ATTR_KEY;
                              CATCHMENT_ATTR_KEY; COMMENT_ATTR_KEY] /\
     attrs !! TITLE_ATTR_KEY = Some title /\
     forall d, ds_attrs d = attrs -> has_required_global_attributes d = false).
Proof.
  split.
  - intros -> ->. reflexivity.
  - intros Hs. unfold create_global_attributes.
    replace (strict && String.eqb title "") with false
      by (destruct Hs as [->|Ht]; [done|];
          destruct strict; simpl; [|done]; symmetry; by apply String.eqb_neq).
    eexists. split; [reflexivity|]. split; [|split].
    + rewrite dom_list_to_map_L. reflexivity.
    + reflexivity.
    + intros d Hd. unfold has_required_global_attributes. rewrite Hd.
      apply not_true_iff_false. rewrite _has_all_members_spec. intros H.
      specialize (H HISTORY_ATTR_KEY ltac:(simpl; tauto)).
      rewrite dom_list_to_map_L in H. simpl in H. set_solver.
Qed.

(** [stf2_mandatory_global_attributes] gives all the mandatory global
    attributes, whatever its arguments. *)
Theorem stf2_mandatory_global_attributes_complete
    (title institution catchment source comment history : string) (d : xdataset) :
  ds_attrs d = stf2_mandatory_global_attributes title institution catchment source comment history ->
  has_required_global_attributes d = true.
Proof.
  intros Hd. unfold has_required_global_attributes. rewrite Hd.
  apply _has_all_members_spec. intros a Ha.
  unfold stf2_mandatory_global_attributes. rewrite dom_list_to_map_L. simpl in *.
  set_solver.
Qed.

(** ** [xr_efts] *)

Lemma add_dims_within (D m : gmap string nat) names shape :
  m ⊆ D -> Forall2 (fun k s => D !! k = Some s) names shape ->
  exists m', add_dims m names shape = Ok m' /\ m ⊆ m' /\ m' ⊆ D /\
    (forall k, In k names -> is_Some (m' !! k)).
Proof.
  revert m shape. induction names as [|n ns IH]; intros m shape Hm H2.
  - inversion H2; subst. exists m. simpl. repeat split; try done.
  - inversion H2 as [|? s ? ss Hs H2']; subst. simpl.
    destruct (m !! n) as [s'|] eqn:Hmn.
    + assert (s' = s) as -> by (pose proof (lookup_weaken m D n s' Hmn Hm); congruence).
      rewrite Nat.eqb_refl. destruct (IH m ss Hm H2') as (m' & E & H1 & H3 & H4).
      exists m'. repeat split; try done. intros k [<-|Hk]; [|by apply H4].
      exists s. eapply lookup_weaken; [exact Hmn|exact H1].
    + destruct (IH (<[n:=s]> m) ss) as (m' & E & H1 & H3 & H4);
        [by apply insert_subseteq_l|done|].
      exists m'. split; [done|]. split; [etrans; [by apply insert_subseteq|done]|].
      split; [done|].
      intros k [<-|Hk]; [|by apply H4]. exists s. eapply lookup_weaken; [|exact H1].
      by simplify_map_eq.
Qed.

Lemma fold_add_dims_within (D m : gmap string nat) (es : list (string * xvar)) :
  m ⊆ D ->
  Forall (fun e : string * xvar =>
            Forall2 (fun k s => D !! k = Some s) (xv_dims e.2) (xv_shape e.2)) es ->
  exists m',
    foldl (fun acc (nv : string * xvar) => m ← acc; add_dims m (xv_dims nv.2) (xv_shape nv.2))
          (Ok m) es = Ok m' /\
    m ⊆ m' /\ m' ⊆ D /\
    (forall e k, In e es -> In k (xv_dims e.2) -> is_Some (m' !! k)).
Proof.
  revert m. induction es as [|e es IH]; intros m Hm Hes.
  - exists m. simpl. repeat split; try done.
  - inversion Hes as [|? ? He Hes']; subst. cbn [foldl mbind outcome_bind].
    destruct (add_dims_within D m _ _ Hm He) as (m1 & E1 & A1 & B1 & C1).
    rewrite E1.
    destruct (IH m1 B1 Hes') as (m' & E & A & B & C).
    exists m'. split; [done|]. split; [etrans; eauto|]. split; [done|].
    intros e' k [<-|He'] Hk; [|by apply (C e')].
    destruct (C1 k Hk) as [s Hs]. exists s. eapply lookup_weaken; eauto.
Qed.

Lemma fold_add_dims_err e (es : list (string * xvar)) :
  foldl (fun acc (nv : string * xvar) => m ← acc; add_dims m (xv_dims nv.2) (xv_shape nv.2))
        (Err e) es = Err e.
Proof. induction es; simpl; auto. Qed.

Lemma arange_length a b : length (arange a b) = b - a.
Proof. unfold arange. by rewrite length_map, length_seq. Qed.

Lemma default_length_nan (o : option (list pyval)) n :
  (forall l, o = Some l -> length l = n) -> length (default (nan_full [n]) o) = n.
Proof.
  destruct o as [l|]; simpl; [by intros H; apply H|].
  intros _. unfold nan_full. rewrite repeat_length. simpl. lia.
Qed.

Lemma xr_efts_coords (issue_times : list pyval) (station_ids : list string)
    (lead_times : list pyval) (ensemble_size : nat) :
  foldl (fun acc (nv : string * xvar) => m ← acc; add_dims m (xv_dims nv.2) (xv_shape nv.2))
    (Ok ∅)
    [(TIME_DIMNAME, var1 TIME_DIMNAME issue_times);
     (STATION_DIMNAME, var1 STATION_DIMNAME (arange 1 (length station_ids + 1)));
     (ENS_MEMBER_DIMNAME, var1 ENS_MEMBER_DIMNAME (arange 1 (ensemble_size + 1)));
     (LEAD_TIME_DIMNAME, var1 LEAD_TIME_DIMNAME lead_times);
     (STATION_ID_VARNAME, var1 STATION_DIMNAME (map PyStr station_ids))] =
  Ok (<[TIME_DIMNAME := length issue_times]>
        (<[STATION_DIMNAME := length station_ids]>
         (<[ENS_MEMBER_DIMNAME := ensemble_size]>
          {[LEAD_TIME_DIMNAME := length lead_times]}))).
Proof.
  set (D := <[TIME_DIMNAME := length issue_times]>
              (<[STATION_DIMNAME := length station_ids]>
               (<[ENS_MEMBER_DIMNAME := ensemble_size]>
                {[LEAD_TIME_DIMNAME := length lead_times]})) : gmap string nat).
  lazymatch goal with
  | |- foldl ?f (Ok ∅) ?es = _ =>
    destruct (fold_add_dims_within D ∅ es) as (m' & E & _ & Hsub & Hall)
  end.
  - apply map_empty_subseteq.
  - repeat constructor; cbn [var1 xv_dims xv_shape snd];
      rewrite ?length_map, ?arange_length; subst D.
    all: try by simplify_map_eq.
    + replace (length station_ids + 1 - 1) with (length station_ids) by lia. by simplify_map_eq.
    + replace (ensemble_size + 1 - 1) with ensemble_size by lia. by simplify_map_eq.
  - rewrite E. f_equal. apply subseteq_dom_eq; [done|]. intros k Hk. subst D.
    rewrite !dom_insert_L, dom_singleton_L in Hk. apply elem_of_dom.
    rewrite !elem_of_union, !elem_of_singleton in Hk.
    destruct Hk as [-> | [-> | [-> | ->]]].
    + apply (Hall (TIME_DIMNAME, var1 TIME_DIMNAME issue_times)); simpl; tauto.
    + apply (Hall (STATION_DIMNAME, var1 STATION_DIMNAME (arange 1 (length station_ids + 1))));
        simpl; tauto.
    + apply (Hall (ENS_MEMBER_DIMNAME, var1 ENS_MEMBER_DIMNAME (arange 1 (ensemble_size + 1))));
        simpl; tauto.
    + apply (Hall (LEAD_TIME_DIMNAME, var1 LEAD_TIME_DIMNAME lead_times)); simpl; tauto.
Qed.

Lemma add_dims_one (D : gmap string nat) k n len :
  D !! k = Some n ->
  add_dims D [k] [len] =
    if Nat.eqb n len then Ok D
    else raise (ValueError ("conflicting sizes for dimension '" ++ k ++ "'")).
Proof. intros H. simpl. rewrite H. by destruct (Nat.eqb n len). Qed.

(** [xr_efts] succeeds whenever every optional per-station list has one
    entry per station; the data set's dimensions are then time, station,
    ens_member and lead_time with the lengths of the issue times, the
    station identifiers, the ensemble size and the lead times, and it
    passes [has_required_xarray_dimensions] and [has_required_variables]. *)
Theorem xr_efts_schema (issue_times : list pyval) (station_ids : list string)
    (lead_times : option (list pyval)) (lead_time_tstep : string) (ensemble_size : nat)
    (station_names : option (list string)) (latitudes longitudes areas : option (list pyval))
    (nc_attributes : option (gmap string string)) :
  (forall l, station_names = Some l -> length l = length station_ids) ->
  (forall l, latitudes = Some l -> length l = length station_ids) ->
  (forall l, longitudes = Some l -> length l = length station_ids) ->
  (forall l, areas = Some l -> length l = length station_ids) ->
  exists d,
    xr_efts issue_times station_ids lead_times lead_time_tstep ensemble_size station_names
      latitudes longitudes areas nc_attributes = Ok d /\
    ds_dims d = <[TIME_DIMNAME := length issue_times]>
                  (<[STATION_DIMNAME := length station_ids]>
                   (<[ENS_MEMBER_DIMNAME := ensemble_size]>
                    {[LEAD_TIME_DIMNAME := length (default [PyInt 0] lead_times)]})) /\
    has_required_xarray_dimensions d = true /\
    has_required_variables d = true.
Proof.
  intros Hn Hla Hlo Har. unfold xr_efts, xr_Dataset.
  rewrite foldl_app, xr_efts_coords.
  set (D := <[TIME_DIMNAME := length issue_times]>
              (<[STATION_DIMNAME := length station_ids]>
               (<[ENS_MEMBER_DIMNAME := ensemble_size]>
                {[LEAD_TIME_DIMNAME := length (default [PyInt 0] lead_times)]})) : gmap string nat).
  assert (HS : D !! STATION_DIMNAME = Some (length station_ids)) by (subst D; by simplify_map_eq).
  cbn [foldl mbind outcome_bind var1 xv_dims xv_shape snd].
  rewrite !length_map, !default_length_nan by assumption.
  replace (length (default station_ids station_names)) with (length station_ids)
    by (destruct station_names as [l|]; simpl; [rewrite (Hn l eq_refl)|]; done).
  repeat (cbn [mbind outcome_bind]; rewrite (add_dims_one D _ _ _ HS), Nat.eqb_refl).
  cbn [mbind outcome_bind].
  eexists. split; [reflexivity|]. cbn [ds_dims ds_variables].
  split; [done|]. split.
  + unfold has_required_xarray_dimensions. apply _has_required_dimensions_spec.
    intros k. cbn [ds_dims]. subst D. rewrite !dom_insert_L, dom_singleton_L.
    rewrite !elem_of_union, !elem_of_singleton. simpl. unfold TIME_DIMNAME, STATION_DIMNAME,
      ENS_MEMBER_DIMNAME, LEAD_TIME_DIMNAME. intuition congruence.
  + unfold has_required_variables. apply _has_all_members_spec. cbn [ds_variables].
    intros v Hv. rewrite dom_list_to_map_L. apply elem_of_list_to_set.
    apply list_elem_of_In. simpl in *. tauto.
Qed.

Lemma stf2_mandatory_global_attributes_dom
    (title institution catchment source comment history : string) :
  dom (stf2_mandatory_global_attributes title institution catchment source comment history) =
  (list_to_set mandatory_global_attributes : gset string).
Proof. unfold stf2_mandatory_global_attributes. rewrite dom_list_to_map_L. simpl. set_solver. Qed.

(** A data set built by [xr_efts] passes [has_required_global_attributes]
    exactly when [nc_attributes] is [None] or empty (the STF 2.0 defaults
    are then used) or holds all the mandatory keys itself. *)
Theorem xr_efts_global_attributes (issue_times : list pyval) (station_ids : list string)
    (lead_times : option (list pyval)) (lead_time_tstep : string) (ensemble_size : nat)
    (station_names : option (list string)) (latitudes longitudes areas : option (list pyval))
    (nc_attributes : option (gmap string string)) (d : xdataset) :
  xr_efts issue_times station_ids lead_times lead_time_tstep ensemble_size station_names
    latitudes longitudes areas nc_attributes = Ok d ->
  has_required_global_attributes d = true <->
  (nc_attributes = None \/ nc_attributes = Some ∅ \/
   exists a, nc_attributes = Some a /\
             forall k, In k mandatory_global_attributes -> k ∈ dom a).
Proof.
  intros H. unfold xr_efts, xr_Dataset in H.
  lazymatch type of H with
  | context [foldl ?f ?x ?es] => destruct (foldl f x es) as [m|e]; [|discriminate]
  end.
  cbn [mbind outcome_bind] in H. injection H as <-.
  unfold has_required_global_attributes. cbn [ds_attrs]. rewrite _has_all_members_spec.
  assert (Hdef : forall k, In k mandatory_global_attributes -> k ∈ dom stf2_default_attributes).
  { intros k Hk. unfold stf2_default_attributes. rewrite stf2_mandatory_global_attributes_dom.
    by apply elem_of_list_to_set, list_elem_of_In. }
  destruct nc_attributes as [a|].
  - destruct (bool_decide (a = ∅)) eqn:Ha.
    + apply bool_decide_eq_true in Ha as ->. split; [by right; left|done].
    + apply bool_decide_eq_false in Ha. split.
      * intros Hk. right; right. by exists a.
      * intros [E|[E|(a' & E & Hk)]]; [discriminate|congruence|].
        injection E as <-. exact Hk.
  - split; [by left|done].
Qed.

(** When one of the optional per-station lists (station names, latitudes,
    longitudes, areas) does not have one entry per station, [xr_efts]
    raises the [ValueError] of conflicting sizes for the station dimension. *)
Theorem xr_efts_station_length_mismatch (issue_times : list pyval) (station_ids : list string)
    (lead_times : option (list pyval)) (lead_time_tstep : string) (ensemble_size : nat)
    (station_names : option (list string)) (latitudes longitudes areas : option (list pyval))
    (nc_attributes : option (gmap string string)) :
  (exists l, station_names = Some l /\ length l <> length station_ids) \/
  (exists l, latitudes = Some l /\ length l <> length station_ids) \/
  (exists l, longitudes = Some l /\ length l <> length station_ids) \/
  (exists l, areas = Some l /\ length l <> length station_ids) ->
  xr_efts issue_times station_ids lead_times lead_time_tstep ensemble_size station_names
    latitudes longitudes areas nc_attributes =
  raise (ValueError ("conflicting sizes for dimension '" ++ STATION_DIMNAME ++ "'")).
Proof.
  intros Hm. unfold xr_efts, xr_Dataset.
  rewrite foldl_app, xr_efts_coords.
  set (D := <[TIME_DIMNAME := length issue_times]>
              (<[STATION_DIMNAME := length station_ids]>
               (<[ENS_MEMBER_DIMNAME := ensemble_size]>
                {[LEAD_TIME_DIMNAME := length (default [PyInt 0] lead_times)]})) : gmap string nat).
  assert (HS : D !! STATION_DIMNAME = Some (length station_ids)) by (subst D; by simplify_map_eq).
  cbn [foldl mbind outcome_bind var1 xv_dims xv_shape snd].
  set (l1 := length (map PyStr (default station_ids station_names))).
  set (l2 := length (default (nan_full [length station_ids]) latitudes)).
  set (l3 := length (default (nan_full [length station_ids]) longitudes)).
  set (l4 := length (default (nan_full [length station_ids]) areas)).
  assert (Hl : l1 <> length station_ids \/ l2 <> length station_ids \/
               l3 <> length station_ids \/ l4 <> length station_ids).
  { subst l1 l2 l3 l4. rewrite length_map.
    destruct Hm as [(l & -> & Hl)|[(l & -> & Hl)|[(l & -> & Hl)|(l & -> & Hl)]]];
      simpl; tauto. }
  clearbody l1 l2 l3 l4.
  destruct (decide (l1 = length station_ids)) as [->|E1].
  2: { rewrite (add_dims_one D _ _ _ HS).
       replace (Nat.eqb (length station_ids) l1) with false
         by (symmetry; apply Nat.eqb_neq; lia). reflexivity. }
  rewrite (add_dims_one D _ _ _ HS), Nat.eqb_refl. cbn [mbind outcome_bind].
  destruct (decide (l2 = length station_ids)) as [->|E2].
  2: { rewrite (add_dims_one D _ _ _ HS).
       replace (Nat.eqb (length station_ids) l2) with false
         by (symmetry; apply Nat.eqb_neq; lia). reflexivity. }
  rewrite (add_dims_one D _ _ _ HS), Nat.eqb_refl. cbn [mbind outcome_bind].
  destruct (decide (l3 = length station_ids)) as [->|E3].
  2: { rewrite (add_dims_one D _ _ _ HS).
       replace (Nat.eqb (length station_ids) l3) with false
         by (symmetry; apply Nat.eqb_neq; lia). reflexivity. }
  rewrite (add_dims_one D _ _ _ HS), Nat.eqb_refl. cbn [mbind outcome_bind].
  destruct (decide (l4 = length station_ids)) as [->|E4].
  2: { rewrite (add_dims_one D _ _ _ HS).
       replace (Nat.eqb (length station_ids) l4) with false
         by (symmetry; apply Nat.eqb_neq; lia). reflexivity. }
  exfalso. tauto.
Qed.

(** ** [EftsDataSet.create_data_variables] and [create_efts] *)


Lemma sizes_of_first_missing d pre n post :
  Forall (fun m => is_Some (ds_dims d !! m)) pre -> ds_dims d !! n = None ->
  sizes_of d (pre ++ n :: post) = raise (KeyError n).
Proof.
  intros Hpre Hn. unfold sizes_of. induction Hpre as [|m pre [s Hs] Hpre IH]; simpl.
  - rewrite Hn. reflexivity.
  - rewrite Hs. cbn [mbind outcome_bind]. unfold sizes_of in IH. rewrite IH. reflexivity.
Qed.

(** [create_data_variables] reads the four dimension sizes first: the
    first of lead_time, station, ens_member and time missing from the
    data set raises [KeyError] with its name, whatever the definitions. *)
Theorem create_data_variables_missing_dimension (self : EftsDataSet)
    (data_var_def : list (string * VarDef)) (pre : list string) (n : string) (post : list string) :
  four_dims_names = pre ++ n :: post ->
  Forall (fun m => is_Some (ds_dims (data self) !! m)) pre ->
  ds_dims (data self) !! n = None ->
  create_data_variables self data_var_def = raise (KeyError n).
Proof.
  intros Hs Hpre Hn. unfold create_data_variables.
  rewrite Hs, sizes_of_first_missing by assumption. reflexivity.
Qed.


Lemma xr_Dataset_attrs data_vars coords attrs d :
  xr_Dataset data_vars coords attrs = Ok d -> ds_attrs d = attrs.
Proof.
  unfold xr_Dataset.
  destruct (foldl _ _ _) as [m|e]; cbn [mbind outcome_bind]; [|discriminate].
  by intros [= <-].
Qed.

(** [create_efts], when it succeeds, gives a data set whose only global
    attribute is the placeholder "description": the [nc_attributes] given
    are not stored, and the result fails [has_required_global_attributes]. *)
Theorem create_efts_ignores_nc_attributes fs fname tdi data_var_definitions stations_ids
    station_names nc_attributes optional_vars lead_length ensemble_length lead_time_tstep e :
  fst (create_efts fs fname tdi data_var_definitions stations_ids station_names nc_attributes
         optional_vars lead_length ensemble_length lead_time_tstep) = Ok e ->
  ds_attrs (data e) = {[ "description" := "TODO: put the right attributes" ]} /\
  has_required_global_attributes (data e) = false.
Proof.
  unfold create_efts.
  destruct stations_ids as [ids|]; [|discriminate].
  destruct nc_attributes as [a|]; [|discriminate].
  case_bool_decide; [discriminate|].
  destruct data_var_definitions as [|defs]; [discriminate|]. cbn [fst].
  destruct (create_efts_variables _ _ _ _ _ _ _) as [v|err]; cbn [mbind outcome_bind]; [|discriminate].
  destruct (xr_Dataset _ _ _) as [d|err] eqn:Ed; cbn [mbind outcome_bind mret outcome_ret]; [|discriminate].
  intros [= <-]. cbn [data EftsDataSet_of_dataset]. apply xr_Dataset_attrs in Ed. rewrite Ed.
  split; [done|]. unfold has_required_global_attributes. cbn [ds_attrs]. rewrite Ed.
  apply not_true_iff_false. rewrite _has_all_members_spec. intros Hall.
  specialize (Hall TITLE_ATTR_KEY ltac:(simpl; tauto)).
  rewrite dom_singleton_L, elem_of_singleton in Hall. discriminate.
Qed.

(** ** [EftsDataSet.get_ensemble_forecasts] *)

Lemma outcome_bind_ok {E A B} (m : outcome E A) (k : A -> outcome E B) r :
  (m ≫= k) = Ok r -> exists a, m = Ok a /\ k a = Ok r.
Proof. destruct m as [a|e]; cbn [mbind outcome_bind]; [eauto|discriminate]. Qed.

Lemma index_for_identifier_None self dimension_id :
  exists e, index_for_identifier self None dimension_id = Err e.
Proof.
  unfold index_for_identifier.
  destruct (_get_values _ _) as [vals|e]; cbn [mbind outcome_bind]; eauto.
Qed.

(** [get_ensemble_forecasts] never returns a value when no identifier is
    given: with [identifier = None] it always raises. *)
Theorem get_ensemble_forecasts_requires_identifier (self : EftsDataSet) (variable_name : string)
    (dimension_id : option string) (start_time : option pyval) (lead_time_count : option nat) :
  exists e,
    get_ensemble_forecasts self variable_name None dimension_id start_time lead_time_count = Err e.
Proof.
  unfold get_ensemble_forecasts.
  destruct (get_time_dim self) as [td|e]; cbn [mbind outcome_bind]; [|eauto].
  destruct start_time as [t|]; [|destruct td as [|t td]]; cbn [mbind outcome_bind];
    [| eexists; reflexivity |].
  all: destruct (get_ensemble_size self) as [n|e]; cbn [mbind outcome_bind]; [|eauto].
  all: destruct (index_for_identifier_None self
                   (Some (default (get_stations_varname self) dimension_id))) as [e He];
    rewrite He; cbn [mbind outcome_bind]; eauto.
Qed.

Lemma isel_4 (v : xvar) (l s e t : string) (L S E T t0 n k c : nat) (r : xvar) :
  xv_dims v = [l; s; e; t] -> xv_shape v = [L; S; E; T] ->
  isel v [IInt t0; ISlice n; IInt k; ISlice c] = Ok r ->
  t0 < L /\ k < E /\ xv_dims r = [s; t] /\ xv_shape r = [Nat.min n S; Nat.min c T] /\
  xv_values r = map (fun idx => nth (rm_flat [L; S; E; T] idx) (xv_values v) PyNone)
                    (cart [[t0]; seq 0 (Nat.min n S); [k]; seq 0 (Nat.min c T)]).
Proof.
  intros Hd Hs. unfold isel. rewrite Hd, Hs. cbn [length axis_selections].
  change (Nat.ltb 4 4) with false. cbv beta iota.
  destruct (Nat.ltb t0 L) eqn:Ht; cbn [mbind outcome_bind]; [|intros H; discriminate H].
  destruct (Nat.ltb k E) eqn:Hk; cbn [mbind outcome_bind]; [|intros H; discriminate H].
  apply Nat.ltb_lt in Ht, Hk. intros [= <-]. cbn [xv_dims xv_shape xv_values].
  split; [done|]. split; [done|]. cbn. rewrite !length_seq. done.
Qed.

Lemma nth_flat_map_blocks {B} (f : nat -> list B) q s p a b d :
  (forall i, length (f i) = q) -> a < p -> b < q ->
  nth (a * q + b) (flat_map f (seq s p)) d = nth b (f (s + a)) d.
Proof.
  intros Hq. revert s a. induction p as [|p IH]; intros s a Ha Hb; [lia|].
  cbn [seq flat_map]. destruct a as [|a].
  - rewrite app_nth1 by (rewrite Hq; lia). f_equal. f_equal. lia.
  - rewrite app_nth2 by (rewrite Hq; lia). rewrite Hq.
    replace (S a * q + b - q) with (a * q + b) by lia.
    rewrite IH by lia. f_equal. f_equal. lia.
Qed.

Lemma length_flat_map_blocks {B} (f : nat -> list B) q s p :
  (forall i, length (f i) = q) -> length (flat_map f (seq s p)) = p * q.
Proof.
  intros Hq. revert s. induction p as [|p IH]; intros s; [done|].
  cbn [seq flat_map]. rewrite length_app, Hq, IH. lia.
Qed.

Lemma cart_4 t0 k p q :
  cart [[t0]; seq 0 p; [k]; seq 0 q] =
  flat_map (fun a => map (fun b => [t0; a; k; b]) (seq 0 q)) (seq 0 p).
Proof.
  assert (Hb : forall l : list nat, cart [l] = map (fun b => [b]) l)
    by (induction l as [|x l IHl]; [done|]; cbn [cart flat_map map] in *; rewrite IHl; reflexivity).
  assert (Hc : forall p ps, cart (p :: ps) = flat_map (fun i => map (cons i) (cart ps)) p)
    by reflexivity.
  rewrite Hc, Hc, Hc, Hb. cbn [flat_map]. rewrite !app_nil_r. induction (seq 0 p) as [|a l IH]; [done|].
  cbn [flat_map]. rewrite map_app, IH, !map_map. reflexivity.
Qed.

(** On a variable stored as (lead_time, station, ens_member, time),
    [get_ensemble_forecasts] applies its indices by position: the time
    index selects on the lead_time axis, the ensemble count slices the
    station axis, the station index selects on the ens_member axis and the
    lead time count slices the time axis.  The result has dimensions
    (station, time) and its cell (a, b) is the input cell
    (time index, a, station index, b). *)
Theorem get_ensemble_forecasts_layout (self : EftsDataSet) (variable_name : string)
    (identifier : option pyval) (dimension_id : option string) (start_time : option pyval)
    (lead_time_count : option nat) (v : xvar) (L S E T : nat) (r : xvar) :
  ds_variables (data self) !! variable_name = Some v ->
  xv_dims v = [LEAD_TIME_DIMNAME; STATION_DIMNAME; ENS_MEMBER_DIMNAME; TIME_DIMNAME] ->
  xv_shape v = [L; S; E; T] ->
  get_ensemble_forecasts self variable_name identifier dimension_id start_time
    lead_time_count = Ok r ->
  exists n_ens c indx_time index_id,
    get_ensemble_size self = Ok n_ens /\
    (lead_time_count = Some c \/ (lead_time_count = None /\ get_lead_time_count self = Ok c)) /\
    index_for_identifier self identifier
      (Some (default (get_stations_varname self) dimension_id)) = Ok index_id /\
    (forall t, start_time = Some t -> index_for_time self t = Ok indx_time) /\
    indx_time < L /\ index_id < E /\
    xv_dims r = [STATION_DIMNAME; TIME_DIMNAME] /\
    xv_shape r = [Nat.min n_ens S; Nat.min c T] /\
    (forall a b, a < Nat.min n_ens S -> b < Nat.min c T ->
       nth (a * Nat.min c T + b) (xv_values r) PyNone =
       nth (rm_flat [L; S; E; T] [indx_time; a; index_id; b]) (xv_values v) PyNone).
Proof.
  intros Hv Hd Hs H. unfold get_ensemble_forecasts in H.
  apply outcome_bind_ok in H as (td & _ & H).
  apply outcome_bind_ok in H as (t0 & Ht0 & H).
  apply outcome_bind_ok in H as (n_ens & Hn & H).
  apply outcome_bind_ok in H as (index_id & Hid & H).
  apply outcome_bind_ok in H as (u & _ & H).
  apply outcome_bind_ok in H as (c & Hc & H).
  apply outcome_bind_ok in H as (indx_time & Hit & H).
  rewrite Hv in H.
  destruct (isel_4 v _ _ _ _ _ _ _ _ _ _ _ _ r Hd Hs H) as (HL & HE & Hrd & Hrs & Hrv).
  exists n_ens, c, indx_time, index_id. split; [done|]. split.
  { destruct lead_time_count as [c'|]; [left; congruence|right; done]. }
  split; [done|]. split.
  { intros t ->. injection Ht0 as <-. done. }
  do 4 (split; [done|]).
  intros a b Ha Hb. rewrite Hrv.
  rewrite cart_4.
  assert (Hlen : forall a', length (map (fun b => [indx_time; a'; index_id; b])
                                        (seq 0 (Nat.min c T))) = Nat.min c T)
    by (intros; by rewrite length_map, length_seq).
  rewrite (nth_map_lt _ _ _ PyNone []).
  2:{ rewrite (length_flat_map_blocks _ (Nat.min c T)) by exact Hlen. nia. }
  rewrite (nth_flat_map_blocks _ (Nat.min c T)) by (exact Hlen || lia).
  rewrite (nth_map_lt _ _ _ [] 0) by (rewrite length_seq; lia).
  rewrite seq_nth by lia. reflexivity.
Qed.

(** ** Station names as byte arrays *)

Lemma mapM_Forall2_ok {E A B} (f : A -> outcome E B) (l : list A) (ys : list B) :
  Forall2 (fun x y => f x = Ok y) l ys -> mapM f l = Ok ys.
Proof.
  induction 1 as [|x y l ys Hxy _ IH]; [done|].
  cbn [mapM]. rewrite Hxy. cbn [mbind outcome_bind]. rewrite IH. done.
Qed.

Lemma lstrip_ws_app_ws w t :
  Forall (fun c => py_isspace c = true) w -> lstrip_ws (w ++ t) = lstrip_ws t.
Proof. induction 1 as [|c w Hc _ IH]; [done|]. cbn [app lstrip_ws]. by rewrite Hc. Qed.

(** [byte_to_string] on an integer: outside [0, 255] it raises the range
    [ValueError]; an ASCII code gives the one-character string; a code from
    128 to 255 is a lone non-UTF-8 byte and raises the decoding error. *)
Theorem byte_to_string_int (z : Z) :
  ((z < 0 \/ 255 < z)%Z ->
     byte_to_string (BInt z) = raise (ValueError "Integer value to bytes: must be in range [0-255]")) /\
  ((0 <= z <= 127)%Z -> byte_to_string (BInt z) = Ok [z]) /\
  ((128 <= z <= 255)%Z ->
     byte_to_string (BInt z) = raise (ValueError "'utf-8' codec can't decode bytes")).
Proof.
  unfold byte_to_string, decode_utf8. split; [|split]; intros Hz.
  - replace (Z.gtb z 255 || Z.ltb z 0) with true; [done|].
    symmetry. apply orb_true_iff. rewrite Z.gtb_lt, Z.ltb_lt. lia.
  - replace (Z.gtb z 255 || Z.ltb z 0) with false.
    2:{ symmetry. apply orb_false_iff. rewrite Z.gtb_ltb, !Z.ltb_ge. lia. }
    cbn [utf8_decode]. replace (in_range 0 127 z) with true; [done|].
    symmetry. unfold in_range. apply andb_true_iff. rewrite !Z.leb_le. lia.
  - replace (Z.gtb z 255 || Z.ltb z 0) with false.
    2:{ symmetry. apply orb_false_iff. rewrite Z.gtb_ltb, !Z.ltb_ge. lia. }
    cbn [utf8_decode]. unfold in_range.
    replace (Z.leb 0 z && Z.leb z 127) with false
      by (symmetry; apply andb_false_iff; rewrite !Z.leb_gt; lia).
    destruct (Z.leb 194 z && Z.leb z 223); [done|].
    destruct (Z.leb 224 z && Z.leb z 239); [done|].
    destruct (Z.leb 240 z && Z.leb z 244); done.
Qed.

Lemma py_strip_pad (s sp : pystr) :
  Forall (fun c => py_isspace c = true) sp ->
  (forall c, head s = Some c -> py_isspace c = false) ->
  (forall c, last s = Some c -> py_isspace c = false) ->
  py_strip (s ++ sp) = s.
Proof.
  intros Hsp Hh Hl. unfold py_strip. destruct s as [|c0 s0].
  - cbn [app]. rewrite <- (app_nil_r sp), lstrip_ws_app_ws by done. done.
  - cbn [app lstrip_ws]. rewrite (Hh c0 eq_refl). change (c0 :: s0 ++ sp) with ((c0 :: s0) ++ sp).
    rewrite rev_app_distr, lstrip_ws_app_ws by (by apply Forall_rev).
    destruct (last (c0 :: s0)) as [c1|] eqn:E.
    + pose proof (Hl c1 eq_refl) as Hc1. apply last_Some in E as [s1 E]. rewrite E.
      rewrite rev_app_distr. cbn [rev app lstrip_ws]. rewrite Hc1.
      cbn [rev]. rewrite rev_involutive. done.
    + apply last_None in E. discriminate E.
Qed.

Lemma concat_singletons (s : pystr) : concat (map (fun c => [c]) s) = s.
Proof. induction s; cbn; congruence. Qed.

Lemma decode_ascii (c : Z) : (0 <= c <= 127)%Z -> decode_utf8 [c] = Ok [c].
Proof.
  intros Hc. unfold decode_utf8. cbn [utf8_decode]. unfold in_range.
  replace (Z.leb 0 c && Z.leb c 127) with true; [done|].
  symmetry. apply andb_true_iff. rewrite !Z.leb_le. lia.
Qed.

(** Station names in ASCII with no white space at either end, stored one
    byte per element and padded to a fixed width with empty or blank bytes
    (as a netCDF character array reads), are given back by
    [byte_stations_to_str] unchanged. *)
Theorem byte_stations_to_str_roundtrip (w : nat) (p : byte_arg) (names : list pystr) :
  p = BBytes [] \/ p = BBytes [32%Z] ->
  Forall (fun s => Forall (fun c => (0 <= c <= 127)%Z) s /\
                   (forall c, head s = Some c -> py_isspace c = false) /\
                   (forall c, last s = Some c -> py_isspace c = false)) names ->
  byte_stations_to_str
    (map (fun s => map (fun c => BBytes [c]) s ++ repeat p (w - length s)) names) = Ok names.
Proof.
  intros Hp Hn. unfold byte_stations_to_str. apply mapM_Forall2_ok.
  apply Forall2_fmap_l, Forall_Forall2_diag. eapply Forall_impl; [exact Hn|].
  assert (Hq : exists q, byte_to_string p = Ok q /\ Forall (fun c => py_isspace c = true) q)
    by (destruct Hp as [-> | ->]; [exists [] | exists [32%Z]]; split; try reflexivity; repeat constructor).
  destruct Hq as (q & Hpq & Hqs).
  intros s (Ha & Hh & Hl).
  cbn beta. unfold compose. unfold byte_array_to_string.
  rewrite (mapM_Forall2_ok byte_to_string _ (map (fun c => [c]) s ++ repeat q (w - length s))).
  2:{ apply Forall2_app.
      - apply Forall2_fmap, Forall_Forall2_diag. eapply Forall_impl; [exact Ha|].
        intros c Hc. apply decode_ascii, Hc.
      - induction (w - length s) as [|k IH]; constructor; [exact Hpq | exact IH]. }
  cbn [mbind outcome_bind]. rewrite concat_app, concat_singletons. f_equal.
  apply py_strip_pad; [|done|done].
  induction (w - length s) as [|k IH]; [constructor|]. cbn [repeat concat].
  apply Forall_app; split; [exact Hqs | exact IH].
Qed.

Lemma mapM_err_inv {E A B} (f : A -> outcome E B) (P : E -> Prop) l e :
  (forall x, In x l -> forall e', f x = Err e' -> P e') -> mapM f l = Err e -> P e.
Proof.
  induction l as [|x l IH]; cbn [mapM]; intros Hf H; [discriminate H|].
  destruct (f x) as [b|e'] eqn:Hx; cbn [mbind outcome_bind] in H.
  - destruct (mapM f l) eqn:Hl; cbn [mbind outcome_bind mret outcome_ret] in H; [discriminate H|].
    injection H as <-. apply IH; [intros; eapply Hf; [right|]; eauto | reflexivity].
  - injection H as <-. eapply Hf; [left|]; eauto.
Qed.

Lemma mapM_err_of_In {E A B} (f : A -> outcome E B) l x e :
  In x l -> f x = Err e -> exists e', mapM f l = Err e'.
Proof.
  induction l as [|y l IH]; intros Hin Hx; [destruct Hin|].
  cbn [mapM]. destruct (f y) as [b|e'] eqn:Hy; cbn [mbind outcome_bind]; [|eauto].
  destruct Hin as [<- | Hin]; [congruence|].
  destruct (IH Hin Hx) as [e' ->]. cbn [mbind outcome_bind]. eauto.
Qed.

Lemma byte_to_string_err_value a e :
  (forall t, a <> BOther t) -> byte_to_string a = Err e -> exists msg, e = ValueError msg.
Proof.
  intros Ha. destruct a as [z|b|t]; cbn [byte_to_string]; unfold decode_utf8, raise.
  - destruct (Z.gtb z 255 || Z.ltb z 0); [intros H; injection H as <-; eauto|].
    destruct (utf8_decode [z]); intros H; [discriminate H|]. injection H as <-. eauto.
  - destruct (utf8_decode b); intros H; [discriminate H|]. injection H as <-. eauto.
  - destruct (Ha t eq_refl).
Qed.

(** When every element is an integer or bytes and some element is an
    integer outside [0, 255], [byte_stations_to_str] raises a [ValueError]. *)
Theorem byte_stations_to_str_int_out_of_range (byte_names : list (list byte_arg)) :
  (forall row, In row byte_names -> forall t, ~ In (BOther t) row) ->
  (exists row z, In row byte_names /\ In (BInt z) row /\ (z < 0 \/ 255 < z)%Z) ->
  exists msg, byte_stations_to_str byte_names = raise (ValueError msg).
Proof.
  intros Hok (row & z & Hrow & Hz & Hr).
  assert (Herr : byte_to_string (BInt z) =
                 raise (ValueError "Integer value to bytes: must be in range [0-255]")).
  { cbn [byte_to_string]. replace (Z.gtb z 255 || Z.ltb z 0) with true; [done|].
    symmetry. apply orb_true_iff. rewrite Z.gtb_ltb, !Z.ltb_lt. lia. }
  destruct (mapM_err_of_In byte_to_string row (BInt z) _ Hz Herr) as [e1 He1].
  assert (Hrowerr : byte_array_to_string row = Err e1)
    by (unfold byte_array_to_string; unfold py_result in *; rewrite He1; reflexivity).
  destruct (mapM_err_of_In byte_array_to_string byte_names row _ Hrow Hrowerr) as [e He].
  unfold byte_stations_to_str, raise. unfold py_result in *. rewrite He.
  assert (HP : exists msg, e = ValueError msg).
  { apply (mapM_err_inv byte_array_to_string (fun e0 => exists msg, e0 = ValueError msg)
           byte_names); [|exact He].
    intros r Hr' e' Hre. unfold byte_array_to_string in Hre.
    destruct (mapM byte_to_string r) as [ss|e''] eqn:Hm; cbn [mbind outcome_bind] in Hre;
      [discriminate Hre|]. injection Hre as <-.
    apply (mapM_err_inv byte_to_string (fun e0 => exists msg, e0 = ValueError msg) r);
      [|exact Hm].
    intros a Ha e3 He3. eapply byte_to_string_err_value; [|exact He3].
    intros t ->. exact (Hok r Hr' t Ha). }
  destruct HP as [msg ->]. eauto.
Qed.

(** ** [create_variable_definitions] *)

(** [create_variable_definitions] always succeeds; the definition it keys
    by a name is the one of the last row with that name, and a name of no
    row is absent (an empty frame gives an empty dictionary). *)
Theorem create_variable_definitions_last_row (dframe : list VarRow) (n : string) :
  exists d, create_variable_definitions dframe = Ok d /\
    d !! n = (fun r => create_variable_definition (vr_name r) (vr_longname r) (vr_units r)
                         (vr_missval r) (vr_precision r) (vr_dimensions r) (vr_others r))
             <$> last (filter (fun r => vr_name r = n) dframe).
Proof.
  eexists. split; [reflexivity|]. unfold dict_update.
  induction dframe as [|r l IH] using rev_ind; [done|].
  rewrite !map_app, foldl_app, filter_app. cbn [map foldl fst snd].
  unfold create_variable_definition at 1. cbn [vd_name].
  rewrite filter_cons, filter_nil.
  destruct (decide (vr_name r = n)) as [<- | Hne].
  - rewrite last_snoc. simplify_map_eq. reflexivity.
  - rewrite app_nil_r, lookup_insert_ne by congruence. exact IH.
Qed.

(** ** [reduce_dimensions]: its errors *)

Lemma r_unique_aux_spec seen l :
  List.NoDup (r_unique_aux seen l) /\
  (forall a, In a (r_unique_aux seen l) <-> In a l /\ ~ In a seen).
Proof.
  revert seen. induction l as [|x l IH]; intros seen; cbn [r_unique_aux].
  - split; [constructor|]. intros a. cbn. tauto.
  - destruct (r_in x seen) eqn:Hx.
    + apply r_in_spec in Hx. destruct (IH seen) as [Hnd Hin]. split; [done|].
      intros a. rewrite Hin. cbn. split; [tauto|]. intros [[<- | Ha] Hs]; tauto.
    + apply r_in_false in Hx. destruct (IH (x :: seen)) as [Hnd Hin]. split.
      * constructor; [|done]. rewrite Hin. cbn. tauto.
      * intros a. cbn. rewrite Hin. cbn. split.
        -- intros [<- | [Ha Hs]]; [tauto|]. tauto.
        -- intros [[<- | Ha] Hs]; [tauto|].
           destruct (String.eq_dec x a) as [-> | Hne]; [tauto|]. right. split; [done|].
           intros [-> | ?]; [congruence | tauto].
Qed.

(** [reduce_dimensions] with a subset holding a name that is not a
    dimension name of the array stops; the message lists every such name
    of the subset, each once. *)
Theorem reduce_dimensions_missing_names {A : Type} (na : A) (x : rarray) (dn s : list string) :
  r_dim_names x = Some dn ->
  length dn = length (r_dim x) ->
  (exists t, In t s /\ ~ In t dn) ->
  exists missing,
    reduce_dimensions na x (Some s) =
      stop (String.concat ""
              (map (fun d => "Dimension names to slice but not found in array dim names: "
                               ++ d ++ " , ")%string missing)) /\
    List.NoDup missing /\ (forall t, In t missing <-> In t s /\ ~ In t dn).
Proof.
  intros Hdn Hlen (t & Hts & Htn).
  destruct x as [ds dno data]; cbn [r_dim r_dim_names] in *; subst dno.
  exists (r_setdiff s dn).
  destruct (r_unique_aux_spec [] (List.filter (fun a => negb (r_in a dn)) s)) as [Hnd Hin].
  assert (Hm : forall a, In a (r_setdiff s dn) <-> In a s /\ ~ In a dn).
  { intros a. unfold r_setdiff, r_unique. rewrite Hin, filter_In, negb_true_iff, r_in_false.
    cbn. tauto. }
  split; [|split; [exact Hnd | exact Hm]].
  unfold reduce_dimensions. cbn [r_dim r_dim_names].
  rewrite Hlen, Nat.eqb_refl. cbn [negb].
  destruct s as [|s0 s'] eqn:Es; [destruct Hts|]. rewrite <- Es in *.
  destruct (r_setdiff s dn) as [|d ds'] eqn:Ed.
  - exfalso. apply (proj2 (Hm t)). tauto.
  - reflexivity.
Qed.

(** [reduce_dimensions] with a subset of the array's dimension names that
    leaves out an axis of extent greater than 1 stops with "Cannot drop
    non-degenerate when subsetting". *)
Theorem reduce_dimensions_drop_nondegenerate {A : Type} (na : A) (x : rarray)
    (dn s : list string) (i : nat) :
  r_dim_names x = Some dn ->
  length dn = length (r_dim x) ->
  List.NoDup dn ->
  s <> [] ->
  (forall t, In t s -> In t dn) ->
  i < length dn ->
  ~ In (nth i dn "") s ->
  1 < nth i (r_dim x) 0 ->
  reduce_dimensions na x (Some s) = stop "Cannot drop non-degenerate when subsetting".
Proof.
  intros Hdn Hlen Hnd Hne Hin Hi Hni Hsz.
  destruct x as [ds dno data]; cbn [r_dim r_dim_names] in *; subst dno.
  unfold reduce_dimensions. cbn [r_dim r_dim_names].
  rewrite Hlen, Nat.eqb_refl. cbn [negb].
  destruct s as [|s0 s'] eqn:Es; [congruence|]. rewrite <- Es in *.
  rewrite r_setdiff_all_in by done. cbn [length Nat.eqb negb].
  replace (existsb _ _) with true; [reflexivity|].
  symmetry. apply existsb_exists. exists (nth i dn "").
  rewrite r_setdiff_nodup, filter_In, negb_true_iff, r_in_false by done.
  rewrite r_match_nth by done. cbn [default from_option id].
  split; [split; [apply nth_In; lia | done]|]. apply Nat.ltb_lt. exact Hsz.
Qed.

(** ** Witnesses of the further properties *)

(** Witness of [index_for_identifier_first_match]: the station "b" of the small forecast data set is at position 1. *)
Lemma index_for_identifier_first_match_witness :
  index_for_identifier (EftsDataSet_of_dataset test_forecast_dataset) (Some (PyStr "b"))
    (Some STATION_ID_VARNAME) = Ok 1.
Proof.
  destruct (index_for_identifier_first_match (EftsDataSet_of_dataset test_forecast_dataset)
    (PyStr "b") STATION_ID_VARNAME (var1 STATION_DIMNAME [PyStr "a"; PyStr "b"]) 1
    ltac:(simpl; tauto) ltac:(vm_compute; reflexivity)) as [H _].
  apply (proj2 (proj2 (H ltac:(discriminate)) eq_refl)).
  split; [reflexivity|]. intros j Hj. assert (j = 0) as -> by lia. discriminate.
Defined.

(** Witness of [index_for_time_first_match]: the time 1 of the small forecast data set is at position 1. *)
Lemma index_for_time_first_match_witness :
  index_for_time (EftsDataSet_of_dataset test_forecast_dataset) (PyInt 1) = Ok 1.
Proof.
  apply (proj2 (proj1 (index_for_time_first_match (EftsDataSet_of_dataset test_forecast_dataset)
    (PyInt 1) (var1 TIME_DIMNAME [PyInt 0; PyInt 1]) 1 ltac:(vm_compute; reflexivity) eq_refl)
    ltac:(discriminate))).
  split; [reflexivity|]. intros j Hj. assert (j = 0) as -> by lia. discriminate.
Defined.

(** Witness of [index_for_identifier_unconventional_dimension]: "rain_fcast" is not a dimension variable. *)
Lemma index_for_identifier_unconventional_dimension_witness :
  index_for_identifier (EftsDataSet_of_dataset test_forecast_dataset) None (Some "rain_fcast") =
    raise (ValueError ("rain_fcast cannot be directly retrieved. Must be in " ++
                       String.concat ", " conventional_varnames)).
Proof.
  apply index_for_identifier_unconventional_dimension. simpl. intuition discriminate.
Defined.

(** Witness of [stf2_mandatory_global_attributes_complete]: a data set whose attributes are the STF 2.0 ones. *)
Lemma stf2_mandatory_global_attributes_complete_witness :
  has_required_global_attributes
    (mk_xdataset ∅ ∅ [] (stf2_mandatory_global_attributes "t" "i" "c" "s" "" "h")) = true.
Proof.
  apply (stf2_mandatory_global_attributes_complete "t" "i" "c" "s" "" "h"). reflexivity.
Defined.

(** Witness of [xr_efts_schema]: the inputs of the test, with two station names. *)
Lemma xr_efts_schema_witness :
  exists d,
    xr_efts test_issue_times test_station_ids (Some test_lead_times) "hours" 10
      (Some ["A"; "B"]) None None None None = Ok d /\
    has_required_xarray_dimensions d = true /\ has_required_variables d = true.
Proof.
  destruct (xr_efts_schema test_issue_times test_station_ids (Some test_lead_times) "hours" 10
    (Some ["A"; "B"]) None None None None) as (d & Hd & _ & Hx & Hv).
  - intros l Hl. injection Hl as <-. reflexivity.
  - intros l Hl. discriminate Hl.
  - intros l Hl. discriminate Hl.
  - intros l Hl. discriminate Hl.
  - exists d. split; [exact Hd|]. split; [exact Hx|exact Hv].
Defined.

(** Witness of [xr_efts_global_attributes]: the test data set, built with the default attributes. *)
Lemma xr_efts_global_attributes_witness :
  has_required_global_attributes test_dataset = true.
Proof.
  apply (proj2 (xr_efts_global_attributes test_issue_times test_station_ids
    (Some test_lead_times) "hours" 10 None None None None None test_dataset
    ltac:(vm_compute; reflexivity))).
  left. reflexivity.
Defined.

(** Witness of [xr_efts_station_length_mismatch]: one station name for two stations. *)
Lemma xr_efts_station_length_mismatch_witness :
  xr_efts test_issue_times test_station_ids (Some test_lead_times) "hours" 10
    (Some ["A"]) None None None None =
  raise (ValueError ("conflicting sizes for dimension '" ++ STATION_DIMNAME ++ "'")).
Proof.
  apply xr_efts_station_length_mismatch. left. exists ["A"]. split; [reflexivity|discriminate].
Defined.

(** Witness of [create_data_variables_missing_dimension]: a data set with the lead time dimension only. *)
Lemma create_data_variables_missing_dimension_witness :
  create_data_variables
    (EftsDataSet_of_dataset (mk_xdataset {[ LEAD_TIME_DIMNAME := 3 ]} ∅ [] ∅)) [] =
  raise (KeyError STATION_DIMNAME).
Proof.
  apply (create_data_variables_missing_dimension _ [] [LEAD_TIME_DIMNAME] STATION_DIMNAME
    [ENS_MEMBER_DIMNAME; TIME_DIMNAME]).
  - reflexivity.
  - constructor; [eexists; reflexivity | constructor].
  - reflexivity.
Defined.


(** Witness of [create_efts_ignores_nc_attributes]: a new file, with the STF 2.0 attributes given. *)
Lemma create_efts_ignores_nc_attributes_witness :
  exists e,
    fst (create_efts ∅ "forecast.nc" test_time_dim_info (DefsDict []) (Some [1; 2]%Z) None
           (Some stf2_default_attributes) None 3 10 "hours") = Ok e /\
    has_required_global_attributes (data e) = false.
Proof.
  destruct (fst (create_efts ∅ "forecast.nc" test_time_dim_info (DefsDict []) (Some [1; 2]%Z)
                  None (Some stf2_default_attributes) None 3 10 "hours")) as [e|ex] eqn:H.
  - exists e. split; [reflexivity|].
    exact (proj2 (create_efts_ignores_nc_attributes ∅ "forecast.nc" test_time_dim_info
      (DefsDict []) (Some [1; 2]%Z) None (Some stf2_default_attributes) None 3 10 "hours" e H)).
  - vm_compute in H. discriminate H.
Defined.

(** Witness of [get_ensemble_forecasts_layout]: station "b" at time 1 of the small forecast data set; the cell (1, 1) of the result is the input cell (1, 1, 1, 1), that is 15. *)
Lemma get_ensemble_forecasts_layout_witness :
  exists r,
    get_ensemble_forecasts (EftsDataSet_of_dataset test_forecast_dataset) "rain_fcast"
      (Some (PyStr "b")) None (Some (PyInt 1)) None = Ok r /\
    xv_dims r = [STATION_DIMNAME; TIME_DIMNAME] /\
    nth 3 (xv_values r) PyNone = PyInt 15.
Proof.
  destruct (get_ensemble_forecasts (EftsDataSet_of_dataset test_forecast_dataset) "rain_fcast"
      (Some (PyStr "b")) None (Some (PyInt 1)) None) as [r|ex] eqn:H.
  - destruct (get_ensemble_forecasts_layout (EftsDataSet_of_dataset test_forecast_dataset)
      "rain_fcast" (Some (PyStr "b")) None (Some (PyInt 1)) None
      (mk_xvar four_dims_names [2; 2; 2; 2] (map (fun k => PyInt (Z.of_nat k)) (seq 0 16)))
      2 2 2 2 r ltac:(vm_compute; reflexivity) eq_refl eq_refl H)
      as (n_ens & c & it & id & Hn & Hc & Hid & Ht & _ & _ & Hd & _ & Hv).
    exists r. split; [reflexivity|]. split; [exact Hd|].
    vm_compute in Hn. injection Hn as <-.
    destruct Hc as [Hc | [_ Hc]]; [discriminate Hc|]. vm_compute in Hc. injection Hc as <-.
    vm_compute in Hid. injection Hid as <-.
    specialize (Ht _ eq_refl). vm_compute in Ht. injection Ht as <-.
    change 3 with (1 * Nat.min 2 2 + 1). rewrite (Hv 1 1) by (cbn; lia).
    reflexivity.
  - vm_compute in H. discriminate H.
Defined.

(** Witness of [byte_stations_to_str_roundtrip]: "AB" and "C" padded to four bytes. *)
Lemma byte_stations_to_str_roundtrip_witness :
  byte_stations_to_str
    [[BBytes [65%Z]; BBytes [66%Z]; BBytes []; BBytes []];
     [BBytes [67%Z]; BBytes []; BBytes []; BBytes []]] = Ok [[65; 66]; [67]]%Z.
Proof.
  apply (byte_stations_to_str_roundtrip 4 (BBytes []) [[65; 66]; [67]]%Z (or_introl eq_refl)).
  repeat constructor; try lia; intros c Hc; cbn in Hc; injection Hc as <-; reflexivity.
Defined.

(** Witness of [byte_stations_to_str_int_out_of_range]: the integer 300 in the first name. *)
Lemma byte_stations_to_str_int_out_of_range_witness :
  exists msg, byte_stations_to_str [[BInt 65; BInt 300]; [BBytes [66%Z]]] = raise (ValueError msg).
Proof.
  apply byte_stations_to_str_int_out_of_range.
  - intros row Hrow t Ht. cbn in Hrow, Ht.
    destruct Hrow as [<- | [<- | []]]; cbn in Ht; intuition discriminate.
  - exists [BInt 65; BInt 300], 300%Z. cbn. intuition lia.
Defined.

(** Witness of [reduce_dimensions_missing_names]: the subset ("a", "z") of an array on ("a", "b"). *)
Lemma reduce_dimensions_missing_names_witness :
  exists missing,
    reduce_dimensions 0%Z (mk_rarray [2; 3] (Some ["a"; "b"]) [1; 2; 3; 4; 5; 6]%Z)
      (Some ["a"; "z"]) =
      stop (String.concat ""
              (map (fun d => "Dimension names to slice but not found in array dim names: "
                               ++ d ++ " , ")%string missing)) /\
    List.NoDup missing /\ (forall t, In t missing <-> In t ["a"; "z"] /\ ~ In t ["a"; "b"]).
Proof.
  apply reduce_dimensions_missing_names; [reflexivity | reflexivity |].
  exists "z". cbn. intuition discriminate.
Defined.

(** Witness of [reduce_dimensions_drop_nondegenerate]: the axis "b" of extent 3 left out. *)
Lemma reduce_dimensions_drop_nondegenerate_witness :
  reduce_dimensions 0%Z (mk_rarray [2; 3] (Some ["a"; "b"]) [1; 2; 3; 4; 5; 6]%Z) (Some ["a"]) =
    stop "Cannot drop non-degenerate when subsetting".
Proof.
  apply (reduce_dimensions_drop_nondegenerate 0%Z _ ["a"; "b"] ["a"] 1).
  - reflexivity.
  - reflexivity.
  - repeat (apply List.NoDup_cons; [simpl; intuition discriminate|]); apply List.NoDup_nil.
  - discriminate.
  - intros t Ht. cbn in *. intuition.
  - cbn. lia.
  - cbn. intuition discriminate.
  - cbn. lia.
Defined.
